(** * AlertSphere backend: the three HTTP handlers of [src/index.js]

    The program is an Express application with three POST routes,
    [/register], [/send-otp] and [/verify-otp].  Each handler reads fields
    of the parsed JSON body, awaits calls to collaborators that live outside
    the repository (the Supabase record store and OTP channel, [bcrypt],
    the [express-validator] predicates) and answers with one HTTP status
    and one JSON body.

    The embedding follows the source line by line:
    - JSON values with the JavaScript notion of truthiness ([!phone],
      [if (error)], [isOfficer ? .. : ..]);
    - a handler is a program [Prog Response] that awaits collaborator calls
      and writes to [console.error]; [try { .. } catch (error) { .. }] is
      the exception layer [Prog (Error + A)];
    - the collaborators are not part of the repository, so every handler
      is run against an arbitrary [Service]; the run returns the response,
      the final state of the collaborator and the ordered list of calls
      that were made, each with the outcome it had. *)

From Stdlib Require Import ZArith Ascii String List Bool Floats.SpecFloat.
From stdpp Require Import gmap strings list fin_maps.

Set Warnings "-register-all".
Local Open Scope string_scope.

(** ** JSON values as JavaScript sees them *)

Module Js.

(** A value produced by [JSON.parse] (or [undefined], which a missing
    property reads as).  Numbers are IEEE-754 doubles. *)
Inductive value : Type :=
| VUndefined
| VNull
| VBool (b : bool)
| VNumber (x : spec_float)
| VString (s : string)
| VArray (xs : list value)
| VObject (props : list (string * value)).

(** ECMAScript [ToBoolean]: what [if (v)], [!v] and [v ? a : b] test. *)
Definition ToBoolean (v : value) : bool :=
  match v with
  | VUndefined | VNull => false
  | VBool b => b
  | VNumber (S754_zero _) | VNumber S754_nan => false
  | VNumber _ => true
  | VString s => negb (s =? "")
  | VArray _ | VObject _ => true
  end.

(** An [Error] object; the handlers only ever read [error.message]. *)
Record Error : Type := mkError { message : string }.

End Js.
Export Js.

(** The number literal [0] of a JSON body. *)
Definition zero : value := VNumber (S754_zero false).

(** [req.body]: the object that [bodyParser.json()] produced. *)
Abbreviation Body := (gmap string value).

(** [const { f } = req.body]: a missing property reads as [undefined]. *)
Definition prop (body : Body) (f : string) : value :=
  default VUndefined (body !! f).

(** ** Responses *)

(** One entry of [errors.array()]. *)
Record ValidationError : Type := mkValidationError {
  ve_msg : string;
  ve_param : string;
  ve_value : value;
  ve_location : string
}.

(** The JSON documents the handlers send: [{ message }] or [{ errors }]. *)
Inductive Json : Type :=
| Message (m : string)
| Errors (errors : list ValidationError).

(** [res.status(s).json(b)] *)
Record Response : Type := mkResponse { status : Z; json : Json }.

(** ** Calls to the collaborators *)

(** A row of a table, and the object literal passed to [insert]/[update]. *)
Abbreviation Row := (gmap string value).

(** What the query builder was asked to do after [.from(table)]. *)
Inductive QueryOp : Type :=
| QSelect (columns : list string)
| QInsert (rows : list Row)
| QUpdate (patch : Row).

(** [supabase.from(t).<op>.eq(c, v)...(.single())] *)
Record Query : Type := mkQuery {
  q_from : string;
  q_op : QueryOp;
  q_eq : list (string * value);
  q_single : bool
}.

(** [supabase.auth.*] *)
Inductive AuthCall : Type :=
| SignInWithOtp (phone : value)
| VerifyOtp (phone token : value) (type : string).

(** What the Supabase client resolves with: [{ data, error }]. *)
Record Result : Type := mkResult { data : value; error : value }.

(** An awaited promise either resolves with a value or rejects. *)
Inductive Outcome (A : Type) : Type :=
| Resolved (a : A)
| Rejected (e : Error).
Arguments Resolved {A} a.
Arguments Rejected {A} e.

(** ** Handler programs *)

Inductive Prog (A : Type) : Type :=
| Ret (a : A)
| AwaitQuery (q : Query) (k : Outcome Result -> Prog A)
| AwaitAuth (c : AuthCall) (k : Outcome Result -> Prog A)
| AwaitHash (plain : value) (saltRounds : Z) (k : Outcome string -> Prog A)
| ConsoleError (label detail : string) (k : Prog A).
Arguments Ret {A} a.
Arguments AwaitQuery {A} q k.
Arguments AwaitAuth {A} c k.
Arguments AwaitHash {A} plain saltRounds k.
Arguments ConsoleError {A} label detail k.

Fixpoint bind {A B : Type} (p : Prog A) (f : A -> Prog B) : Prog B :=
  match p with
  | Ret a => f a
  | AwaitQuery q k => AwaitQuery q (fun o => bind (k o) f)
  | AwaitAuth c k => AwaitAuth c (fun o => bind (k o) f)
  | AwaitHash p r k => AwaitHash p r (fun o => bind (k o) f)
  | ConsoleError l d k => ConsoleError l d (bind k f)
  end.

(** Code inside [try]: it completes with a value or throws. *)
Abbreviation Try A := (Prog (Error + A)).

Definition throw {A : Type} (e : Error) : Try A := Ret (inl e).
Definition done_with {A : Type} (a : A) : Try A := Ret (inr a).

Definition bind_try {A B : Type} (p : Try A) (f : A -> Try B) : Try B :=
  bind p (fun r => match r with inl e => Ret (inl e) | inr a => f a end).

(** [await p]: a rejected promise throws at the [await]. *)
Definition settle {A : Type} (o : Outcome A) : Try A :=
  match o with Resolved a => done_with a | Rejected e => throw e end.

Definition await_query (q : Query) : Try Result := AwaitQuery q settle.
Definition await_auth (c : AuthCall) : Try Result := AwaitAuth c settle.
Definition await_hash (plain : value) (rounds : Z) : Try string :=
  AwaitHash plain rounds settle.

(** [try { body } catch (error) { handler }] *)
Definition try_catch {A : Type} (body : Try A) (handler : Error -> Prog A) : Prog A :=
  bind body (fun r => match r with inl e => handler e | inr a => Ret a end).

Notation "'await!' x <- m ; k" := (bind_try m (fun x => k))
  (at level 10, x name, m at level 100, k at level 200).

(** ** The validation chains of [/register]

    [isLength], [isEmail], [isMobilePhone] and [isBoolean] are predicates of
    the [express-validator] package.  The repository only names them, so
    they are taken as given: each says whether one value passes.  A chain
    hands its check the value found under its field ([undefined] when the
    field is missing); when that value is an array, the check is run on
    every element, and every element that fails is reported on its own. *)

Record ValidatorLib : Type := mkValidatorLib {
  isLength : nat -> value -> bool;       (* [.isLength({ min })] *)
  isEmail : value -> bool;
  isMobilePhone : value -> bool;
  isBoolean : value -> bool
}.

(** [body(field).<check>().withMessage(msg)] *)
Record Chain : Type := mkChain {
  chain_field : string;
  chain_check : value -> bool;
  chain_msg : string
}.

Definition register_chains (V : ValidatorLib) : list Chain :=
  [ mkChain "fullName" (isLength V 3) "Full name must be at least 3 characters long";
    mkChain "email" (isEmail V) "Invalid email address";
    mkChain "phone" (isMobilePhone V) "Invalid phone number";
    mkChain "password" (isLength V 6) "Password must be at least 6 characters long";
    mkChain "anonymous" (isBoolean V) "Anonymous status must be a boolean";
    mkChain "isOfficer" (isBoolean V) "isOfficer must be a boolean" ].

(** The values a check is run on: [Array.isArray(value) ? value : [value]]. *)
Definition instances (v : value) : list value :=
  match v with
  | VArray xs => xs
  | _ => [v]
  end.

(** Whether the request satisfies the rule of one chain. *)
Definition passes (c : Chain) (body : Body) : bool :=
  forallb (chain_check c) (instances (prop body (chain_field c))).

(** Running one chain records an error for every value its check fails
    on; the error carries that value. *)
Definition run_chain (body : Body) (c : Chain) : list ValidationError :=
  flat_map (fun x => if chain_check c x then []
                     else [ mkValidationError (chain_msg c) (chain_field c)
                              x "body" ])
           (instances (prop body (chain_field c))).

(** [validationResult(req).array()]: every chain has run, in order. *)
Definition validationResult (chains : list Chain) (body : Body) : list ValidationError :=
  flat_map (run_chain body) chains.

(** [errors.isEmpty()] *)
Definition isEmpty (errors : list ValidationError) : bool :=
  match errors with [] => true | _ :: _ => false end.

(** ** The three handlers *)

Definition internal_error : Response :=
  mkResponse 500 (Message "Internal server error.").

(** [supabase.from('users').select('id').eq('email', email).single()] *)
Definition find_by_email (email : value) : Query :=
  mkQuery "users" (QSelect ["id"]) [("email", email)] true.

(** The object literal of the [insert] call, lines 57-66. *)
Definition new_user (fullName email phone anonymous isOfficer : value)
    (hashedPassword : string) : Row :=
  list_to_map
    [ ("full_name", fullName);
      ("email", email);
      ("phone", phone);
      ("password", VString hashedPassword);
      ("role", VString (if ToBoolean isOfficer
                        then "Law Enforcement Officer" else "Citizen"));
      ("anonymous_status", anonymous);
      ("officer_verification", if ToBoolean isOfficer then VBool false else VNull);
      ("verification_status", VBool false) ].

(** [supabase.from('users').insert([row])] *)
Definition insert_user (row : Row) : Query :=
  mkQuery "users" (QInsert [row]) [] false.

(** [supabase.from('users').update({ verification_status: true }).eq('phone', phone)] *)
Definition mark_verified (phone : value) : Query :=
  mkQuery "users" (QUpdate {[ "verification_status" := VBool true ]})
    [("phone", phone)] false.

(** [app.post('/register', [...chains], async (req, res) => ...)] *)
Definition register (V : ValidatorLib) (body : Body) : Prog Response :=
  let errors := validationResult (register_chains V) body in
  if negb (isEmpty errors) then
    Ret (mkResponse 400 (Errors errors))
  else
    let fullName := prop body "fullName" in
    let email := prop body "email" in
    let phone := prop body "phone" in
    let password := prop body "password" in
    let anonymous := prop body "anonymous" in
    let isOfficer := prop body "isOfficer" in
    try_catch
      (await! found <- await_query (find_by_email email);
       let existingUser := data found in
       if ToBoolean existingUser then
         done_with (mkResponse 400 (Message "Email is already registered."))
       else
         await! hashedPassword <- await_hash password 10;
         await! inserted <- await_query
           (insert_user (new_user fullName email phone anonymous isOfficer
                           hashedPassword));
         if ToBoolean (error inserted) then
           throw (mkError "Failed to register user")
         else
           done_with (mkResponse 200
             (Message "Registration successful. Please verify your phone.")))
      (fun error =>
         ConsoleError "Error registering user:" (message error)
           (Ret internal_error)).

(** [app.post('/send-otp', async (req, res) => ...)] *)
Definition send_otp (body : Body) : Prog Response :=
  let phone := prop body "phone" in
  if negb (ToBoolean phone) then
    Ret (mkResponse 400 (Message "Phone number is required."))
  else
    try_catch
      (await! sent <- await_auth (SignInWithOtp phone);
       if ToBoolean (error sent) then
         throw (mkError "Failed to send OTP")
       else
         done_with (mkResponse 200 (Message "OTP sent successfully.")))
      (fun error =>
         ConsoleError "Error sending OTP:" (message error)
           (Ret internal_error)).

(** [app.post('/verify-otp', async (req, res) => ...)] *)
Definition verify_otp (body : Body) : Prog Response :=
  let phone := prop body "phone" in
  let token := prop body "token" in
  if negb (ToBoolean phone) || negb (ToBoolean token) then
    Ret (mkResponse 400 (Message "Phone and OTP token are required."))
  else
    try_catch
      (await! checked <- await_auth (VerifyOtp phone token "sms");
       if ToBoolean (error checked) then
         throw (mkError "Invalid OTP")
       else
         await! updated <- await_query (mark_verified phone);
         if ToBoolean (error updated) then
           throw (mkError "Failed to update verification status")
         else
           done_with (mkResponse 200 (Message "Phone verified successfully.")))
      (fun error =>
         ConsoleError "Error verifying OTP:" (message error)
           (Ret internal_error)).

(** ** Running a handler against the collaborators *)

(** The collaborators, with whatever state [W] they keep.  Each call
    yields the outcome the handler awaits and the next state. *)
Record Service (W : Type) : Type := mkService {
  query : Query -> W -> Outcome Result * W;
  auth : AuthCall -> W -> Outcome Result * W;
  bcrypt_hash : value -> Z -> W -> Outcome string * W
}.
Arguments mkService {W} _ _ _.
Arguments query {W} _ _ _.
Arguments auth {W} _ _ _.
Arguments bcrypt_hash {W} _ _ _ _.

(** What an observer of the process sees, in order. *)
Inductive Event : Type :=
| EQuery (q : Query) (o : Outcome Result)
| EAuth (c : AuthCall) (o : Outcome Result)
| EHash (plain : value) (saltRounds : Z) (o : Outcome string)
| ELog (label detail : string).

Fixpoint run {W A : Type} (svc : Service W) (p : Prog A) (w : W)
    : A * W * list Event :=
  match p with
  | Ret a => (a, w, [])
  | AwaitQuery q k =>
      let '(o, w1) := query svc q w in
      let '(a, w2, tr) := run svc (k o) w1 in
      (a, w2, EQuery q o :: tr)
  | AwaitAuth c k =>
      let '(o, w1) := auth svc c w in
      let '(a, w2, tr) := run svc (k o) w1 in
      (a, w2, EAuth c o :: tr)
  | AwaitHash p r k =>
      let '(o, w1) := bcrypt_hash svc p r w in
      let '(a, w2, tr) := run svc (k o) w1 in
      (a, w2, EHash p r o :: tr)
  | ConsoleError l d k =>
      let '(a, w2, tr) := run svc k w in
      (a, w2, ELog l d :: tr)
  end.

(** ** A record store to run the handlers against

    The hosted database is a collaborator, not code of the repository.
    To speak about stored records, the queries the handlers build are given
    their usual reading over one table of rows: [select .. eq] keeps the
    rows whose column matches, [.single()] answers with the row when there
    is exactly one and with an error otherwise, [insert] appends, and
    [update .. eq] overwrites the patched columns of every matching row.
    How the store compares a column with the operand of [.eq] is left
    open ([same]); so are the answers of the OTP channel and of [bcrypt],
    and whether a query fails ([Oracle]); a query that fails leaves the
    table as it was. *)

(** A query that does not go through: the store answers with an [error]
    object, or the call throws. *)
Inductive Fault : Type :=
| Reports (code : string)
| Throws (e : Error).

Record Oracle : Type := mkOracle {
  fault : Query -> option Fault;
  otp : AuthCall -> Outcome Result;
  hashing : value -> Z -> Outcome string
}.

Definition no_error : Result := mkResult VNull VNull.

Definition failure (code : string) : Result :=
  mkResult VNull (VObject [("code", VString code)]).

Definition fault_outcome (f : Fault) : Outcome Result :=
  match f with
  | Reports code => Resolved (failure code)
  | Throws e => Rejected e
  end.

Section RecordStore.

Variable same : value -> value -> bool.

Definition matches (filters : list (string * value)) (r : Row) : bool :=
  forallb (fun f => match r !! f.1 with
                    | Some x => same x f.2
                    | None => false
                    end) filters.

Definition project (columns : list string) (r : Row) : value :=
  VObject (omap (fun c => match r !! c with
                          | Some v => Some (c, v)
                          | None => None
                          end) columns).

Definition patch_row (filters : list (string * value)) (patch : Row) (r : Row) : Row :=
  if matches filters r then patch ∪ r else r.

Definition apply_query (q : Query) (users : list Row) : Result * list Row :=
  if negb (q_from q =? "users") then (failure "42P01", users)
  else
    match q_op q with
    | QSelect columns =>
        let hits := List.filter (matches (q_eq q)) users in
        if q_single q then
          match hits with
          | [r] => (mkResult (project columns r) VNull, users)
          | _ => (failure "PGRST116", users)
          end
        else (mkResult (VArray (map (project columns) hits)) VNull, users)
    | QInsert rows => (no_error, (users ++ rows)%list)
    | QUpdate patch => (no_error, map (patch_row (q_eq q) patch) users)
    end.

Definition store_service (env : Oracle) : Service (list Row) :=
  mkService
    (fun q users =>
       match fault env q with
       | Some f => (fault_outcome f, users)
       | None => let '(r, users') := apply_query q users in (Resolved r, users')
       end)
    (fun c users => (otp env c, users))
    (fun plain rounds users => (hashing env plain rounds, users)).

End RecordStore.

(** ** Concrete collaborators for the examples *)

Module Sample.

(** Text comparison, enough for the string columns of the examples. *)
Definition same_text (a b : value) : bool :=
  match a, b with
  | VString x, VString y => x =? y
  | _, _ => false
  end.

Definition has_at (s : string) : bool :=
  existsb (fun c => Ascii.eqb c "@"%char) (list_ascii_of_string s).

(** Stand-ins for the four predicates, on string and boolean values. *)
Definition validators : ValidatorLib :=
  mkValidatorLib
    (fun min v => match v with
                  | VString s => (min <=? String.length s)%nat
                  | _ => false
                  end)
    (fun v => match v with VString s => has_at s | _ => false end)
    (fun v => match v with
              | VString s => (10 <=? String.length s)%nat
              | _ => false
              end)
    (fun v => match v with VBool _ => true | _ => false end).

(** The numbers whose string form is [0] or [1]. *)
Definition zero_or_one (x : spec_float) : bool :=
  match x with
  | S754_zero _ => true
  | S754_finite false m e => (e <=? 0)%Z && (Z.pos m =? 2 ^ (- e))%Z
  | _ => false
  end.

(** [isBoolean] as the validation library decides it: the value is turned
    into a string, and the strings [true], [false], [1] and [0] pass. *)
Fixpoint spells_boolean (v : value) : bool :=
  match v with
  | VBool _ => true
  | VString s => (s =? "true") || (s =? "false") || (s =? "1") || (s =? "0")
  | VNumber x => zero_or_one x
  | VArray [x] => spells_boolean x
  | _ => false
  end.

(** The stand-ins, with [isBoolean] as the library decides it. *)
Definition spelled : ValidatorLib :=
  mkValidatorLib (isLength validators) (isEmail validators)
                 (isMobilePhone validators) spells_boolean.

(** Every call succeeds. *)
Definition calm : Oracle :=
  mkOracle (fun _ => None)
           (fun _ => Resolved no_error)
           (fun _ _ => Resolved "$2b$10$N9qo8uLOickgx2ZMRZoMye").

(** The e-mail lookup reports an error of its own; all else succeeds. *)
Definition lookup_fails : Oracle :=
  mkOracle (fun q => match q_op q with
                     | QSelect _ => Some (Reports "57014")
                     | _ => None
                     end)
           (otp calm) (hashing calm).

(** The OTP channel answers every call with an error. *)
Definition otp_refused : Oracle :=
  mkOracle (fault calm)
           (fun _ => Resolved (failure "otp_expired"))
           (hashing calm).

(** Updates are refused by the store; all else succeeds. *)
Definition update_fails : Oracle :=
  mkOracle (fun q => match q_op q with
                     | QUpdate _ => Some (Reports "23514")
                     | _ => None
                     end)
           (otp calm) (hashing calm).

Definition request (fields : list (string * value)) : Body := list_to_map fields.

Definition alice : Body :=
  request [ ("fullName", VString "Alice Wanjiru");
            ("email", VString "alice@example.org");
            ("phone", VString "+254712345678");
            ("password", VString "s3cret!");
            ("anonymous", VBool false);
            ("isOfficer", VBool true) ].

Definition bob : Body :=
  request [ ("fullName", VString "Bob Otieno");
            ("email", VString "bob@example.org");
            ("phone", VString "+254700000001");
            ("password", VString "hunter22");
            ("anonymous", VBool true);
            ("isOfficer", VBool false) ].

(** The table after Alice has registered. *)
Definition one_user : list Row :=
  [ list_to_map [ ("id", VString "7f0c");
                  ("full_name", VString "Alice Wanjiru");
                  ("email", VString "alice@example.org");
                  ("phone", VString "+254712345678");
                  ("role", VString "Law Enforcement Officer");
                  ("verification_status", VBool false) ] ].

(** The record store of the examples. *)
Definition store (env : Oracle) : Service (list Row) :=
  store_service same_text env.

(** The row that registering Alice inserts. *)
Definition alice_row : Row :=
  new_user (VString "Alice Wanjiru") (VString "alice@example.org")
    (VString "+254712345678") (VBool false) (VBool true)
    "$2b$10$N9qo8uLOickgx2ZMRZoMye".

(** A registration with a short name and no password. *)
Definition hasty : Body :=
  request [ ("fullName", VString "Al");
            ("email", VString "al@example.org");
            ("phone", VString "+254711111111");
            ("anonymous", VBool false);
            ("isOfficer", VBool false) ].

Definition code_for (phone token : string) : Body :=
  request [ ("phone", VString phone); ("token", VString token) ].

(** Two accounts that share a phone number and one that does not. *)
Definition three_users : list Row :=
  [ list_to_map [ ("email", VString "a@example.org");
                  ("phone", VString "+254712345678");
                  ("role", VString "Citizen");
                  ("verification_status", VBool false) ];
    list_to_map [ ("email", VString "b@example.org");
                  ("phone", VString "+254700000001");
                  ("role", VString "Citizen");
                  ("verification_status", VBool false) ];
    list_to_map [ ("email", VString "c@example.org");
                  ("phone", VString "+254712345678");
                  ("role", VString "Law Enforcement Officer");
                  ("verification_status", VBool false) ] ].

(** [bcrypt] rejects; all else succeeds. *)
Definition hash_fails : Oracle :=
  mkOracle (fault calm) (otp calm)
           (fun _ _ => Rejected (mkError "data and salt arguments required")).

(** Collaborators without state whose answers are fixed in advance. *)
Definition scripted (q : Query -> Outcome Result)
    (a : AuthCall -> Outcome Result) (h : value -> Z -> Outcome string)
    : Service unit :=
  mkService (fun c w => (q c, w)) (fun c w => (a c, w))
            (fun plain rounds w => (h plain rounds, w)).

(** Every call resolves without an error. *)
Definition agreeable : Service unit :=
  scripted (fun _ => Resolved no_error) (fun _ => Resolved no_error)
           (fun _ _ => Resolved "$2b$10$N9qo8uLOickgx2ZMRZoMye").

(** The network is down: every call to Supabase throws. *)
Definition offline : Service unit :=
  scripted (fun _ => Rejected (mkError "fetch failed"))
           (fun _ => Rejected (mkError "fetch failed"))
           (fun _ _ => Resolved "$2b$10$N9qo8uLOickgx2ZMRZoMye").

Definition caller : Body := request [ ("phone", VString "+254700000001") ].

(** A short table: one verified account and one that is not. *)
Definition two_rows : list Row :=
  [ list_to_map [ ("phone", VString "+254700000001");
                  ("verification_status", VBool true) ];
    list_to_map [ ("phone", VString "+254712345678");
                  ("verification_status", VBool false) ] ].

(** Alice's registration with [isOfficer] sent as the string [false]. *)
Definition quoted : Body := <[ "isOfficer" := VString "false" ]> alice.

(** The row that this registration inserts. *)
Definition quoted_row : Row :=
  new_user (VString "Alice Wanjiru") (VString "alice@example.org")
    (VString "+254712345678") (VBool false) (VString "false")
    "$2b$10$N9qo8uLOickgx2ZMRZoMye".

(** Alice's registration with three names sent as an array. *)
Definition crowd : Body :=
  <[ "fullName" := VArray [VString "Al"; VString "Alice"; VString "B"] ]> alice.

(** What is seen of Alice's registration when every call goes through. *)
Definition alice_calls (found : Result) : list Event :=
  [ EQuery (find_by_email (VString "alice@example.org")) (Resolved found);
    EHash (VString "s3cret!") 10 (Resolved "$2b$10$N9qo8uLOickgx2ZMRZoMye");
    EQuery (insert_user alice_row) (Resolved no_error) ].

(** What is seen of an accepted code for a phone. *)
Definition code_calls (phone token : string) : list Event :=
  [ EAuth (VerifyOtp (VString phone) (VString token) "sms") (Resolved no_error);
    EQuery (mark_verified (VString phone)) (Resolved no_error) ].

(** The table with the same account stored twice. *)
Definition twice_alice : list Row := (one_user ++ one_user)%list.

End Sample.

(** ** The routes *)

Inductive Route : Type := PostRegister | PostSendOtp | PostVerifyOtp.

(** [app.post(path, handler)] *)
Definition app (V : ValidatorLib) (route : Route) : Body -> Prog Response :=
  match route with
  | PostRegister => register V
  | PostSendOtp => send_otp
  | PostVerifyOtp => verify_otp
  end.

(** ** Vocabulary of the statements *)

(** The call reported a failure: the promise rejected, or it resolved with
    a truthy [error]. *)
Definition failedb (o : Outcome Result) : bool :=
  match o with
  | Resolved r => ToBoolean (error r)
  | Rejected _ => true
  end.

(** Text that reaches [console.error] when the outcome is a failure. *)
Definition logged_detail (thrown : string) (o : Outcome Result) : string :=
  match o with
  | Resolved _ => thrown
  | Rejected e => message e
  end.

(** The handler answered [r] without calling any collaborator. *)
Definition answers_without_call (p : Prog Response) (r : Response) : Prop :=
  forall (W : Type) (svc : Service W) (w : W), run svc p w = (r, w, []).

(** An event in which the record store or the OTP channel reported a
    failure to the handler. *)
Definition reported_failure (ev : Event) : bool :=
  match ev with
  | EQuery _ o | EAuth _ o => failedb o
  | EHash _ _ _ | ELog _ _ => false
  end.

(** The e-mail lookup resolved (with whatever [data] and [error]). *)
Definition lookup_reply (ev : Event) : bool :=
  match ev with
  | EQuery q (Resolved _) =>
      match q_op q with QSelect _ => true | _ => false end
  | _ => false
  end.

Definition required_fields : list string :=
  ["fullName"; "email"; "phone"; "password"; "anonymous"; "isOfficer"].

(** The validation library turns down a field that is not there. *)
Definition rejects_missing (V : ValidatorLib) : Prop :=
  Forall (fun c => chain_check c VUndefined = false) (register_chains V).

(** The values under the field of a chain that its check turns down. *)
Definition rejected (c : Chain) (body : Body) : list value :=
  List.filter (fun x => negb (chain_check c x))
              (instances (prop body (chain_field c))).

(** The error that a chain contributes to [errors.array()] for a value
    that its check turns down. *)
Definition violation (c : Chain) (x : value) : ValidationError :=
  mkValidationError (chain_msg c) (chain_field c) x "body".

(** One entry for every value that a check turns down, chain by chain. *)
Definition violations (chains : list Chain) (body : Body) : list ValidationError :=
  flat_map (fun c => map (violation c) (rejected c body)) chains.

(** The row is selected by [.eq('phone', phone)]. *)
Definition has_phone (same : value -> value -> bool) (phone : value) (r : Row) : bool :=
  matches same [("phone", phone)] r.

(** The label each handler passes to [console.error]. *)
Definition log_label (route : Route) : string :=
  match route with
  | PostRegister => "Error registering user:"
  | PostSendOtp => "Error sending OTP:"
  | PostVerifyOtp => "Error verifying OTP:"
  end.

Definition is_log (ev : Event) : bool :=
  match ev with ELog _ _ => true | _ => false end.

(** The error an awaited call rejected with, if it did. *)
Definition rejection (ev : Event) : option Error :=
  match ev with
  | EQuery _ (Rejected e) | EAuth _ (Rejected e) | EHash _ _ (Rejected e) => Some e
  | _ => None
  end.

(** The text a handler throws when a reply carries an [error]. *)
Definition thrown_text (ev : Event) : string :=
  match ev with
  | EQuery q _ =>
      match q_op q with
      | QInsert _ => "Failed to register user"
      | QUpdate _ => "Failed to update verification status"
      | QSelect _ => ""
      end
  | EAuth (SignInWithOtp _) _ => "Failed to send OTP"
  | EAuth (VerifyOtp _ _ _) _ => "Invalid OTP"
  | EHash _ _ _ | ELog _ _ => ""
  end.

(** What reaches [console.error] for a call that failed: the message of
    the error the call threw, or else the handler's own text; an [error]
    carried by a reply is not read beyond its truthiness. *)
Definition logged_for (ev : Event) : string :=
  match rejection ev with
  | Some e => message e
  | None => thrown_text ev
  end.

(** The responses a route has in its source text. *)
Definition responses_of (V : ValidatorLib) (route : Route) (body : Body)
    : list Response :=
  match route with
  | PostRegister =>
      [ mkResponse 400 (Errors (validationResult (register_chains V) body));
        mkResponse 400 (Message "Email is already registered.");
        mkResponse 200 (Message "Registration successful. Please verify your phone.");
        internal_error ]
  | PostSendOtp =>
      [ mkResponse 400 (Message "Phone number is required.");
        mkResponse 200 (Message "OTP sent successfully.");
        internal_error ]
  | PostVerifyOtp =>
      [ mkResponse 400 (Message "Phone and OTP token are required.");
        mkResponse 200 (Message "Phone verified successfully.");
        internal_error ]
  end.

(** The calls a route has in its source text, on the submitted values. *)
Definition own_call (route : Route) (body : Body) (ev : Event) : Prop :=
  match route, ev with
  | _, ELog label _ => label = log_label route
  | PostRegister, EQuery q _ =>
      q = find_by_email (prop body "email")
      \/ exists hashed,
           q = insert_user (new_user (prop body "fullName") (prop body "email")
                              (prop body "phone") (prop body "anonymous")
                              (prop body "isOfficer") hashed)
  | PostRegister, EHash plain rounds _ =>
      plain = prop body "password" /\ rounds = 10%Z
  | PostSendOtp, EAuth c _ => c = SignInWithOtp (prop body "phone")
  | PostVerifyOtp, EAuth c _ =>
      c = VerifyOtp (prop body "phone") (prop body "token") "sms"
  | PostVerifyOtp, EQuery q _ => q = mark_verified (prop body "phone")
  | _, _ => False
  end.

(** The row has been marked as verified. *)
Definition verified (r : Row) : Prop :=
  r !! "verification_status" = Some (VBool true).

(** What the update of [/verify-otp] does to one row of the store. *)
Definition verify_row (same : value -> value -> bool) (phone : value)
    (r : Row) : Row :=
  patch_row same [("phone", phone)] {[ "verification_status" := VBool true ]} r.

(** The row that [/register] builds from a request and a digest. *)
Definition row_of (body : Body) (hashed : string) : Row :=
  new_user (prop body "fullName") (prop body "email") (prop body "phone")
    (prop body "anonymous") (prop body "isOfficer") hashed.

(** ** Process configuration, lines 10-15 *)

(** [process.env]: a variable that is set holds a string. *)
Abbreviation Env := (gmap string string).

(** [process.env.NAME] *)
Definition getenv (env : Env) (name : string) : value :=
  match env !! name with
  | Some s => VString s
  | None => VUndefined
  end.

(** [a || b] *)
Definition or_else (a b : value) : value :=
  if ToBoolean a then a else b.

(** The number literal [3000]: 3000 = 6597069766656000 * 2^-41. *)
Definition three_thousand : value :=
  VNumber (S754_finite false 6597069766656000 (-41)).

(** [const PORT = process.env.PORT || 3000] *)
Definition PORT (env : Env) : value :=
  or_else (getenv env "PORT") three_thousand.

(** * Properties *)

Ltac unfold_handler :=
  cbv [app register send_otp verify_otp try_catch bind_try await_query
       await_auth await_hash settle done_with throw].

Ltac unfold_handler_in H :=
  cbv [app register send_otp verify_otp try_catch bind_try await_query
       await_auth await_hash settle done_with throw] in H.

Ltac ask_service :=
  match goal with
  | H : query ?s ?q ?w = _ |- context [query ?s ?q ?w] => rewrite H
  | H : auth ?s ?c ?w = _ |- context [auth ?s ?c ?w] => rewrite H
  | H : bcrypt_hash ?s ?p ?r ?w = _ |- context [bcrypt_hash ?s ?p ?r ?w] => rewrite H
  end.

(* Every run of a handler, case by case. *)
Ltac call_service H :=
  match type of H with
  | context [query ?s ?q ?w] =>
      let o := fresh "o" in let w' := fresh "w" in let E := fresh "Hquery" in
      destruct (query s q w) as [o w'] eqn:E; destruct o as [? | ?]
  | context [auth ?s ?c ?w] =>
      let o := fresh "o" in let w' := fresh "w" in let E := fresh "Hauth" in
      destruct (auth s c w) as [o w'] eqn:E; destruct o as [? | ?]
  | context [bcrypt_hash ?s ?p ?r ?w] =>
      let o := fresh "o" in let w' := fresh "w" in let E := fresh "Hhash" in
      destruct (bcrypt_hash s p r w) as [o w'] eqn:E; destruct o as [? | ?]
  | context [ToBoolean ?v] =>
      let E := fresh "Htest" in destruct (ToBoolean v) eqn:E
  end; cbn [negb orb bind run] in H.

Ltac all_runs H :=
  unfold_handler_in H; cbn [negb orb bind run] in H;
  repeat call_service H;
  injection H as <- <- <-.

Ltac which_event H :=
  cbn [In] in H;
  repeat match type of H with
         | _ \/ _ => destruct H as [H | H]
         | False => destruct H
         end;
  try discriminate H.

Section AnyService.

Context {W : Type} (svc : Service W).

(** ** /send-otp *)

(** C8: [/send-otp] answers 400 without calling the OTP channel when the
    phone is missing or the empty string; with a phone present it answers
    200 whenever the dispatch succeeds, whatever the number is, and 500
    whenever the dispatch fails. *)
Theorem send_otp_outcomes (body : Body) (w : W) :
  let phone := prop body "phone" in
  (body !! "phone" = None \/ body !! "phone" = Some (VString "") ->
     answers_without_call (send_otp body)
       (mkResponse 400 (Message "Phone number is required.")))
  /\ (ToBoolean phone = true ->
      forall o w1, auth svc (SignInWithOtp phone) w = (o, w1) ->
        if failedb o
        then run svc (send_otp body) w =
               (internal_error, w1,
                [EAuth (SignInWithOtp phone) o;
                 ELog "Error sending OTP:" (logged_detail "Failed to send OTP" o)])
        else run svc (send_otp body) w =
               (mkResponse 200 (Message "OTP sent successfully."), w1,
                [EAuth (SignInWithOtp phone) o])).
Proof.
  intros phone. split.
  - intros Hmissing W' svc' w'. unfold send_otp, prop.
    destruct Hmissing as [-> | ->]; reflexivity.
  - intros Hphone o w1 Hauth. subst phone. unfold_handler.
    rewrite Hphone. cbn [negb bind run]. ask_service.
    destruct o as [r | e]; cbn [failedb logged_detail bind run].
    + destruct (ToBoolean (error r)); reflexivity.
    + reflexivity.
Qed.

(** ** /verify-otp *)

(** C3, as the handler has it: when the OTP channel accepts the (phone,
    token) pair, [/verify-otp] sends the record store one update,
    [verification_status = true] on the rows selected by that phone, and
    answers 200 when the update reports no error, however many rows it
    matched, and 500 when the update reports an error or throws. *)
Theorem accepted_code_marks_verified (body : Body) (w w1 w2 : W)
    (checked : Result) (o : Outcome Result) :
  let phone := prop body "phone" in
  let token := prop body "token" in
  ToBoolean phone = true -> ToBoolean token = true ->
  auth svc (VerifyOtp phone token "sms") w = (Resolved checked, w1) ->
  ToBoolean (error checked) = false ->
  query svc (mark_verified phone) w1 = (o, w2) ->
  if failedb o
  then run svc (verify_otp body) w =
         (internal_error, w2,
          [EAuth (VerifyOtp phone token "sms") (Resolved checked);
           EQuery (mark_verified phone) o;
           ELog "Error verifying OTP:"
             (logged_detail "Failed to update verification status" o)])
  else run svc (verify_otp body) w =
         (mkResponse 200 (Message "Phone verified successfully."), w2,
          [EAuth (VerifyOtp phone token "sms") (Resolved checked);
           EQuery (mark_verified phone) o]).
Proof.
  intros phone token Hphone Htoken Hauth Hok Hupdate. subst phone token.
  unfold_handler.
  rewrite Hphone, Htoken. cbn [negb orb bind run]. ask_service.
  cbn [bind run]. rewrite Hok. cbn [bind run]. ask_service.
  destruct o as [r | e]; cbn [failedb logged_detail bind run].
  - destruct (ToBoolean (error r)); reflexivity.
  - reflexivity.
Qed.

(** Whatever the collaborators are: when the OTP channel turns the code
    down, the handler answers 500 and its only call was the check itself. *)
Lemma refused_code_trace (body : Body) (w w1 : W) (o : Outcome Result) :
  let phone := prop body "phone" in
  let token := prop body "token" in
  ToBoolean phone = true -> ToBoolean token = true ->
  auth svc (VerifyOtp phone token "sms") w = (o, w1) ->
  failedb o = true ->
  run svc (verify_otp body) w =
    (internal_error, w1,
     [EAuth (VerifyOtp phone token "sms") o;
      ELog "Error verifying OTP:" (logged_detail "Invalid OTP" o)]).
Proof.
  intros phone token Hphone Htoken Hauth Hfail. subst phone token.
  unfold_handler. rewrite Hphone, Htoken. cbn [negb orb bind run].
  ask_service. destruct o as [r | e]; cbn [failedb] in Hfail; cbn [bind run].
  - rewrite Hfail. reflexivity.
  - reflexivity.
Qed.

(** ** /register *)

(** C1, as the handler has it: when the e-mail lookup of a validated
    [/register] request returns an account (the [data] of its reply is
    truthy), the handler answers 400 "Email is already registered." and
    the lookup is the only call it made: nothing is hashed and nothing is
    inserted.  The handler reads nothing else of the reply, so an account
    that the lookup does not return is not noticed. *)
Theorem registered_email_is_turned_down (V : ValidatorLib) (body : Body)
    (w w1 : W) (found : Result) :
  validationResult (register_chains V) body = [] ->
  query svc (find_by_email (prop body "email")) w = (Resolved found, w1) ->
  ToBoolean (data found) = true ->
  run svc (register V body) w =
    (mkResponse 400 (Message "Email is already registered."), w1,
     [EQuery (find_by_email (prop body "email")) (Resolved found)]).
Proof.
  intros Hvalid Hlookup Hfound. unfold_handler. rewrite Hvalid.
  cbn [isEmpty negb bind run]. ask_service. cbn [bind run].
  rewrite Hfound. reflexivity.
Qed.

End AnyService.

(** C9: on [/send-otp] and [/verify-otp] a required field counts as missing
    whenever its value is falsy, which the empty string, 0, false, null
    and an absent field all are; the answer is then 400 and no collaborator
    is called. *)
Theorem falsy_field_counts_as_missing (body : Body) :
  Forall (fun v => ToBoolean v = false)
    [VUndefined; VNull; VBool false; zero; VString ""]
  /\ (ToBoolean (prop body "phone") = false ->
      answers_without_call (send_otp body)
        (mkResponse 400 (Message "Phone number is required.")))
  /\ (ToBoolean (prop body "phone") = false \/
      ToBoolean (prop body "token") = false ->
      answers_without_call (verify_otp body)
        (mkResponse 400 (Message "Phone and OTP token are required."))).
Proof.
  split; [repeat constructor |]. split.
  - intros Hphone W svc w. unfold send_otp. rewrite Hphone. reflexivity.
  - intros Hfalsy W svc w. unfold verify_otp.
    destruct Hfalsy as [H | H]; rewrite H; cbn [negb orb]; [reflexivity |].
    rewrite orb_true_r. reflexivity.
Qed.

Section AnyRun.

Context {W : Type} (svc : Service W) (V : ValidatorLib).

(** C5: every row that [/register] hands to the record store carries the
    role and the officer flag fixed by [isOfficer]: true gives
    "Law Enforcement Officer" with [officer_verification = false], false
    gives "Citizen" with [officer_verification = null]. *)
Theorem role_follows_isOfficer (body : Body) (w w' : W) (resp : Response)
    (tr : list Event) (q : Query) (o : Outcome Result) (rows : list Row) :
  run svc (register V body) w = (resp, w', tr) ->
  In (EQuery q o) tr ->
  q_op q = QInsert rows ->
  exists row, rows = [row]
    /\ (prop body "isOfficer" = VBool true ->
        row !! "role" = Some (VString "Law Enforcement Officer")
        /\ row !! "officer_verification" = Some (VBool false))
    /\ (prop body "isOfficer" = VBool false ->
        row !! "role" = Some (VString "Citizen")
        /\ row !! "officer_verification" = Some VNull).
Proof.
  intros Hrun Hin Hop. unfold register in Hrun.
  destruct (negb (isEmpty (validationResult (register_chains V) body))).
  { injection Hrun as <- <- <-. destruct Hin. }
  all_runs Hrun; which_event Hin;
    injection Hin as <- <-; try discriminate Hop;
    injection Hop as <-; eexists; (split; [reflexivity |]);
    split; intros ->; split; reflexivity.
Qed.

End AnyRun.

Section Failures.

Context {W : Type} (svc : Service W) (V : ValidatorLib).

(** C2, as the handlers have it: on every route, a failure of the insert,
    of the update, of the OTP dispatch or of the OTP check, and a lookup
    that throws, ends in 500 with the fixed body "Internal server error.".
    The last thing the handler does is one [console.error] under its own
    label: with the message of the error thrown when the call threw, and
    with the handler's own fixed text when the reply carried an error;
    the error of the reply is neither logged nor returned. *)
Theorem surfaced_failure_is_500 (route : Route) (body : Body) (w w' : W)
    (resp : Response) (tr : list Event) (ev : Event) :
  run svc (app V route body) w = (resp, w', tr) ->
  In ev tr ->
  reported_failure ev = true ->
  lookup_reply ev = false ->
  resp = internal_error
  /\ last tr = Some (ELog (log_label route) (logged_for ev)).
Proof.
  intros Hrun Hin Hfail Hnot_lookup. destruct route; cbn [app] in Hrun.
  - unfold register in Hrun.
    destruct (negb (isEmpty (validationResult (register_chains V) body))).
    { injection Hrun as <- <- <-. destruct Hin. }
    all_runs Hrun; which_event Hin; subst ev;
      cbn [reported_failure failedb lookup_reply find_by_email q_op
           insert_user] in Hfail, Hnot_lookup;
      try congruence; split; reflexivity.
  - unfold send_otp in Hrun. destruct (negb (ToBoolean (prop body "phone"))).
    { injection Hrun as <- <- <-. destruct Hin. }
    all_runs Hrun; which_event Hin; subst ev;
      cbn [reported_failure failedb] in Hfail;
      try congruence; split; reflexivity.
  - unfold verify_otp in Hrun.
    destruct (negb (ToBoolean (prop body "phone"))
              || negb (ToBoolean (prop body "token"))).
    { injection Hrun as <- <- <-. destruct Hin. }
    all_runs Hrun; which_event Hin; subst ev;
      cbn [reported_failure failedb] in Hfail;
      try congruence; split; reflexivity.
Qed.

(** What the handler does with a new account: a valid registration of a
    new e-mail whose insert succeeds is answered with 200; the row has
    [verification_status = false], and its [password] is what [bcrypt.hash]
    returned for the submitted password at cost 10. *)
Lemma new_registration_is_stored (body : Body) (w w1 w2 w3 : W)
    (found inserted : Result) (hashed : string) :
  let row := new_user (prop body "fullName") (prop body "email")
               (prop body "phone") (prop body "anonymous")
               (prop body "isOfficer") hashed in
  validationResult (register_chains V) body = [] ->
  query svc (find_by_email (prop body "email")) w = (Resolved found, w1) ->
  ToBoolean (data found) = false ->
  bcrypt_hash svc (prop body "password") 10 w1 = (Resolved hashed, w2) ->
  query svc (insert_user row) w2 = (Resolved inserted, w3) ->
  ToBoolean (error inserted) = false ->
  run svc (register V body) w =
    (mkResponse 200 (Message "Registration successful. Please verify your phone."),
     w3,
     [EQuery (find_by_email (prop body "email")) (Resolved found);
      EHash (prop body "password") 10 (Resolved hashed);
      EQuery (insert_user row) (Resolved inserted)])
  /\ row !! "verification_status" = Some (VBool false)
  /\ row !! "password" = Some (VString hashed).
Proof.
  intros row Hvalid Hlookup Hnew Hhash Hinsert Hok. subst row.
  split; [| split; reflexivity].
  unfold_handler. rewrite Hvalid. cbn [isEmpty negb bind run].
  ask_service. cbn [bind run]. rewrite Hnew. cbn [bind run].
  ask_service. cbn [bind run]. ask_service. cbn [bind run].
  rewrite Hok. reflexivity.
Qed.

End Failures.

(** ** Validation *)

(** The error list has one entry for every value that a check turns down,
    in the order in which the chains are declared. *)
Lemma run_chain_rejected (body : Body) (c : Chain) :
  run_chain body c = map (violation c) (rejected c body).
Proof.
  unfold run_chain, rejected.
  induction (instances (prop body (chain_field c))) as [| x xs IH];
    [reflexivity |].
  cbn [flat_map List.filter]. destruct (chain_check c x); cbn [negb app map];
    rewrite IH; reflexivity.
Qed.

Lemma validationResult_failing (chains : list Chain) (body : Body) :
  validationResult chains body = violations chains body.
Proof.
  unfold validationResult, violations.
  induction chains as [| c chains IH]; [reflexivity |].
  cbn [flat_map]. rewrite IH, run_chain_rejected. reflexivity.
Qed.

Lemma passes_rejected (c : Chain) (body : Body) :
  passes c body = true <-> rejected c body = [].
Proof.
  unfold passes, rejected.
  induction (instances (prop body (chain_field c))) as [| x xs IH];
    [split; reflexivity |].
  cbn [forallb List.filter]. destruct (chain_check c x); cbn [negb andb].
  - exact IH.
  - split; discriminate.
Qed.

Lemma failing_chain_is_kept (chains : list Chain) (body : Body) (c : Chain) :
  In c chains -> passes c body = false -> violations chains body <> [].
Proof.
  intros Hin Hfails Hnone. unfold violations in Hnone.
  assert (Hempty : rejected c body = []).
  { destruct (rejected c body) as [| x xs] eqn:Hrejected; [reflexivity |].
    assert (Hx : In (violation c x)
                   (flat_map (fun c => map (violation c) (rejected c body)) chains)).
    { apply in_flat_map. exists c. split; [exact Hin |].
      rewrite Hrejected. left. reflexivity. }
    rewrite Hnone in Hx. destruct Hx. }
  apply passes_rejected in Hempty. congruence.
Qed.

Lemma missing_field_fails (V : ValidatorLib) (body : Body) (f : string) :
  rejects_missing V -> In f required_fields -> body !! f = None ->
  exists c, In c (register_chains V) /\ passes c body = false.
Proof.
  intros Hrejects Hin Hmissing.
  change required_fields with (map chain_field (register_chains V)) in Hin.
  apply in_map_iff in Hin as (c & <- & Hc). exists c. split; [exact Hc |].
  unfold passes, prop. rewrite Hmissing. cbn [default instances forallb].
  unfold rejects_missing in Hrejects. rewrite List.Forall_forall in Hrejects.
  rewrite (Hrejects c Hc). reflexivity.
Qed.

(** C4, as the handler has it: when the check of a field of a [/register]
    request turns down the field's value (or, for an array, one of its
    elements), or a required field is missing, the answer is 400 with one
    entry for every value turned down, in the order of the rules, and the
    handler calls no collaborator: nothing is looked up, hashed or
    inserted.  What a check turns down is the validation library's matter. *)
Theorem invalid_registration_is_turned_down (V : ValidatorLib) (body : Body) :
  (exists c, In c (register_chains V) /\ passes c body = false)
  \/ (rejects_missing V /\ exists f, In f required_fields /\ body !! f = None) ->
  violations (register_chains V) body <> []
  /\ answers_without_call (register V body)
       (mkResponse 400 (Errors (violations (register_chains V) body))).
Proof.
  intros Hinvalid.
  assert (Hfails : exists c, In c (register_chains V) /\ passes c body = false).
  { destruct Hinvalid as [H | (Hrejects & f & Hf & Hmissing)]; [exact H |].
    eapply missing_field_fails; eassumption. }
  destruct Hfails as (c & Hc & Hfails).
  assert (Hne : violations (register_chains V) body <> [])
    by (eapply failing_chain_is_kept; eassumption).
  split; [exact Hne |]. intros W svc w. unfold register.
  rewrite validationResult_failing.
  destruct (violations (register_chains V) body) as [| e rest];
    [congruence | reflexivity].
Qed.

(** ** On the record store *)

Section OnRecordStore.

Variable same : value -> value -> bool.
Variable env : Oracle.

Lemma patched_row (phone : value) (r : Row) :
  let r' := patch_row same [("phone", phone)]
              {[ "verification_status" := VBool true ]} r in
  (has_phone same phone r = true ->
     r' !! "verification_status" = Some (VBool true))
  /\ (has_phone same phone r = false -> r' = r)
  /\ (forall c, c <> "verification_status" -> r' !! c = r !! c).
Proof.
  unfold patch_row, has_phone. cbn zeta.
  destruct (matches same [("phone", phone)] r).
  - split; [| split].
    + intros _. apply lookup_union_Some_l. apply lookup_singleton_eq.
    + discriminate.
    + intros c Hc. apply lookup_union_r. apply lookup_singleton_ne. congruence.
  - split; [discriminate | split; [reflexivity |]]. reflexivity.
Qed.

(** C10: a [/verify-otp] request answered with 200 has set
    [verification_status = true] on every stored row whose phone is the
    submitted one, however many there are; every other row is as it was,
    and on every row all other columns are as they were. *)
Theorem verification_reaches_every_row (body : Body) (users users' : list Row)
    (resp : Response) (tr : list Event) :
  run (store_service same env) (verify_otp body) users = (resp, users', tr) ->
  status resp = 200%Z ->
  let phone := prop body "phone" in
  Forall2 (fun r r' =>
             (has_phone same phone r = true ->
                r' !! "verification_status" = Some (VBool true))
             /\ (has_phone same phone r = false -> r' = r)
             /\ (forall c, c <> "verification_status" -> r' !! c = r !! c))
          users users'.
Proof.
  intros Hrun Hok phone. subst phone. unfold verify_otp in Hrun.
  destruct (negb (ToBoolean (prop body "phone"))
            || negb (ToBoolean (prop body "token"))).
  { injection Hrun as <- <- <-. discriminate Hok. }
  all_runs Hrun; try discriminate Hok.
  cbn [store_service query auth] in *.
  match goal with H : (otp env _, users) = _ |- _ => injection H as _ <- end.
  destruct (fault env (mark_verified (prop body "phone"))) as [f |].
  { match goal with
    | H : (fault_outcome f, _) = _ |- _ => injection H as Hf _
    end.
    destruct f; cbn [fault_outcome] in Hf; [| discriminate Hf].
    injection Hf as <-. discriminate. }
  match goal with
  | H : (let '(_, _) := apply_query _ _ _ in _) = _ |- _ =>
      cbn in H; injection H as _ <-
  end.
  induction users as [| r rest IH]; cbn [map]; constructor;
    [apply patched_row | exact IH].
Qed.

(** On the record store: when the lookup goes through and finds the one
    stored account with the submitted e-mail, the table is left as it is. *)
Lemma stored_email_is_turned_down (V : ValidatorLib) (body : Body)
    (users : list Row) (r : Row) :
  validationResult (register_chains V) body = [] ->
  fault env (find_by_email (prop body "email")) = None ->
  List.filter (matches same [("email", prop body "email")]) users = [r] ->
  exists tr,
    run (store_service same env) (register V body) users =
      (mkResponse 400 (Message "Email is already registered."), users, tr)
    /\ length tr = 1.
Proof.
  intros Hvalid Hfault Hone. eexists. unfold_handler. rewrite Hvalid.
  cbn [isEmpty negb bind run store_service query]. rewrite Hfault.
  unfold apply_query. cbn [find_by_email q_from q_op q_eq q_single].
  cbn [String.eqb Ascii.eqb Bool.eqb negb]. rewrite Hone.
  cbn [project omap data ToBoolean bind run]. split; reflexivity.
Qed.

End OnRecordStore.

(** C7: when the OTP channel reports the code invalid or expired, whatever
    the report says, [/verify-otp] answers 500 "Internal server error." and
    the check is the only call it made; run against the record store, the
    table is exactly as it was. *)
Theorem refused_code_changes_nothing {W : Type} (svc : Service W)
    (body : Body) (w w1 : W) (o : Outcome Result)
    (same : value -> value -> bool) (env : Oracle) (users : list Row) :
  let phone := prop body "phone" in
  let token := prop body "token" in
  ToBoolean phone = true -> ToBoolean token = true ->
  auth svc (VerifyOtp phone token "sms") w = (o, w1) ->
  failedb o = true ->
  failedb (otp env (VerifyOtp phone token "sms")) = true ->
  run svc (verify_otp body) w =
    (internal_error, w1,
     [EAuth (VerifyOtp phone token "sms") o;
      ELog "Error verifying OTP:" (logged_detail "Invalid OTP" o)])
  /\ run (store_service same env) (verify_otp body) users =
       (internal_error, users,
        [EAuth (VerifyOtp phone token "sms")
           (otp env (VerifyOtp phone token "sms"));
         ELog "Error verifying OTP:"
           (logged_detail "Invalid OTP" (otp env (VerifyOtp phone token "sms")))]).
Proof.
  intros phone token Hphone Htoken Hauth Hfail Hrefused. split.
  - apply refused_code_trace; assumption.
  - apply refused_code_trace; [assumption | assumption | reflexivity | assumption].
Qed.

(** * The statements at concrete requests *)

Import Sample.

(** C1 as the specification words it does not hold: the table has an
    account with Alice's e-mail, and her registration is answered with 200
    and adds a row, both when the lookup reports an error of its own and
    when the e-mail is stored twice, so that [.single()] has no one row
    to return. *)
Lemma stored_email_is_registered_again :
  (exists r, In r one_user /\ r !! "email" = Some (prop alice "email"))
  /\ run (store lookup_fails) (register validators alice) one_user =
       (mkResponse 200
          (Message "Registration successful. Please verify your phone."),
        (one_user ++ [alice_row])%list, alice_calls (failure "57014"))
  /\ run (store calm) (register validators alice) twice_alice =
       (mkResponse 200
          (Message "Registration successful. Please verify your phone."),
        (twice_alice ++ [alice_row])%list, alice_calls (failure "PGRST116")).
Proof.
  split; [eexists; split; [left; reflexivity | reflexivity] |].
  split; reflexivity.
Qed.

Lemma registered_email_is_turned_down_witness :
  validationResult (register_chains validators) alice = []
  /\ exists tr,
       run (store calm) (register validators alice) one_user =
         (mkResponse 400 (Message "Email is already registered."), one_user, tr)
       /\ length tr = 1.
Proof.
  split; [reflexivity |].
  exists [EQuery (find_by_email (prop alice "email"))
            (Resolved (mkResult (VObject [("id", VString "7f0c")]) VNull))].
  split.
  - apply (registered_email_is_turned_down (store calm) validators alice
             one_user one_user (mkResult (VObject [("id", VString "7f0c")]) VNull));
      reflexivity.
  - reflexivity.
Defined.

(** C2 as the specification words it does not hold: the e-mail lookup
    reports an error, the handler goes on to hash and insert, and the
    answer is 200. *)
Lemma lookup_failure_goes_unnoticed :
  exists users' tr ev,
    run (store lookup_fails) (app validators PostRegister alice) [] =
      (mkResponse 200
         (Message "Registration successful. Please verify your phone."),
       users', tr)
    /\ In ev tr
    /\ reported_failure ev = true
    /\ length users' = 1.
Proof.
  exists [alice_row], (alice_calls (failure "57014")),
    (EQuery (find_by_email (VString "alice@example.org"))
       (Resolved (failure "57014"))).
  split; [reflexivity |].
  split; [left; reflexivity |]. split; reflexivity.
Qed.

Lemma surfaced_failure_is_500_witness :
  run (store update_fails) (app validators PostVerifyOtp
                              (code_for "+254712345678" "493817")) three_users =
    (internal_error, three_users,
     [EAuth (VerifyOtp (VString "+254712345678") (VString "493817") "sms")
        (Resolved no_error);
      EQuery (mark_verified (VString "+254712345678"))
        (Resolved (failure "23514"));
      ELog "Error verifying OTP:" "Failed to update verification status"])
  /\ internal_error = internal_error
  /\ last [EAuth (VerifyOtp (VString "+254712345678") (VString "493817") "sms")
             (Resolved no_error);
           EQuery (mark_verified (VString "+254712345678"))
             (Resolved (failure "23514"));
           ELog "Error verifying OTP:" "Failed to update verification status"]
     = Some (ELog "Error verifying OTP:" "Failed to update verification status").
Proof.
  split; [reflexivity |].
  refine (surfaced_failure_is_500 (store update_fails) validators PostVerifyOtp
            (code_for "+254712345678" "493817") three_users three_users
            internal_error _
            (EQuery (mark_verified (VString "+254712345678"))
               (Resolved (failure "23514"))) _ _ _ _);
    [reflexivity | right; left; reflexivity | reflexivity | reflexivity].
Defined.

(** C3 as the specification words it does not hold: no stored account has
    the submitted phone, the update matches no record and reports no
    error, and the accepted code is answered with 200; the table is as it
    was. *)
Lemma accepted_code_without_account_is_200 :
  List.filter (has_phone same_text (VString "+254700000009")) one_user = []
  /\ run (store calm) (verify_otp (code_for "+254700000009" "493817")) one_user =
       (mkResponse 200 (Message "Phone verified successfully."), one_user,
        code_calls "+254700000009" "493817").
Proof.
  split; reflexivity.
Qed.

Lemma accepted_code_marks_verified_witness :
  exists users' tr,
    run (store calm) (verify_otp (code_for "+254712345678" "493817")) three_users =
      (mkResponse 200 (Message "Phone verified successfully."), users', tr)
    /\ map (fun r : Row => r !! "verification_status") users' =
         [Some (VBool true); Some (VBool false); Some (VBool true)].
Proof.
  exists (map (verify_row same_text (VString "+254712345678")) three_users),
    (code_calls "+254712345678" "493817").
  split.
  - refine (accepted_code_marks_verified (store calm)
              (code_for "+254712345678" "493817")
              three_users three_users _ no_error (Resolved no_error)
              _ _ _ _ _); reflexivity.
  - reflexivity.
Defined.

(** C4 as the specification words it does not hold: [isOfficer] is sent
    as the string [false], which is not a boolean; the library's
    [isBoolean] lets it pass, the request is answered with 200 and a row
    is stored. *)
Lemma quoted_false_is_not_turned_down :
  prop quoted "isOfficer" = VString "false"
  /\ validationResult (register_chains spelled) quoted = []
  /\ run (store calm) (register spelled quoted) [] =
       (mkResponse 200
          (Message "Registration successful. Please verify your phone."),
        [quoted_row],
        [ EQuery (find_by_email (VString "alice@example.org"))
            (Resolved (failure "PGRST116"));
          EHash (VString "s3cret!") 10 (Resolved "$2b$10$N9qo8uLOickgx2ZMRZoMye");
          EQuery (insert_user quoted_row) (Resolved no_error) ]).
Proof.
  split; [reflexivity |]. split; reflexivity.
Qed.

Lemma invalid_registration_is_turned_down_witness :
  hasty !! "password" = None
  /\ answers_without_call (register validators hasty)
       (mkResponse 400
          (Errors
             [ mkValidationError "Full name must be at least 3 characters long"
                 "fullName" (VString "Al") "body";
               mkValidationError "Password must be at least 6 characters long"
                 "password" VUndefined "body" ])).
Proof.
  split; [reflexivity |].
  refine (proj2 (invalid_registration_is_turned_down validators hasty
                   (or_intror (conj _ (ex_intro _ "password" (conj _ _)))))).
  - repeat constructor.
  - cbn [required_fields In]. tauto.
  - reflexivity.
Defined.

Lemma role_follows_isOfficer_witness :
  exists row, [alice_row] = [row]
    /\ (prop alice "isOfficer" = VBool true ->
        row !! "role" = Some (VString "Law Enforcement Officer")
        /\ row !! "officer_verification" = Some (VBool false))
    /\ (prop alice "isOfficer" = VBool false ->
        row !! "role" = Some (VString "Citizen")
        /\ row !! "officer_verification" = Some VNull).
Proof.
  refine (role_follows_isOfficer (store calm) validators alice [] [alice_row]
            (mkResponse 200
               (Message "Registration successful. Please verify your phone."))
            (alice_calls (failure "PGRST116"))
            (insert_user alice_row) (Resolved no_error) [alice_row] _ _ _);
    [reflexivity | right; right; left; reflexivity | reflexivity].
Defined.

Lemma refused_code_changes_nothing_witness :
  run (store otp_refused) (verify_otp (code_for "+254712345678" "000000"))
      three_users =
    (internal_error, three_users,
     [EAuth (VerifyOtp (VString "+254712345678") (VString "000000") "sms")
        (Resolved (failure "otp_expired"));
      ELog "Error verifying OTP:" "Invalid OTP"]).
Proof.
  refine (proj2 (refused_code_changes_nothing (store otp_refused)
                   (code_for "+254712345678" "000000") three_users three_users
                   (Resolved (failure "otp_expired")) same_text otp_refused
                   three_users _ _ _ _ _)); reflexivity.
Defined.

Lemma send_otp_outcomes_witness :
  answers_without_call (send_otp (request [("phone", VString "")]))
    (mkResponse 400 (Message "Phone number is required."))
  /\ run (store calm) (send_otp (request [("phone", VString "+254700000001")])) [] =
       (mkResponse 200 (Message "OTP sent successfully."), [],
        [EAuth (SignInWithOtp (VString "+254700000001")) (Resolved no_error)])
  /\ run (store otp_refused)
         (send_otp (request [("phone", VString "+254700000001")])) [] =
       (internal_error, [],
        [EAuth (SignInWithOtp (VString "+254700000001"))
           (Resolved (failure "otp_expired"));
         ELog "Error sending OTP:" "Failed to send OTP"]).
Proof.
  split; [| split].
  - apply (proj1 (send_otp_outcomes (store calm)
                    (request [("phone", VString "")]) [])).
    right. reflexivity.
  - exact (proj2 (send_otp_outcomes (store calm)
                    (request [("phone", VString "+254700000001")]) [])
             eq_refl (Resolved no_error) [] eq_refl).
  - exact (proj2 (send_otp_outcomes (store otp_refused)
                    (request [("phone", VString "+254700000001")]) [])
             eq_refl (Resolved (failure "otp_expired")) [] eq_refl).
Defined.

Lemma falsy_field_counts_as_missing_witness :
  answers_without_call (send_otp (request [("phone", zero)]))
    (mkResponse 400 (Message "Phone number is required."))
  /\ answers_without_call (verify_otp (code_for "+254712345678" ""))
       (mkResponse 400 (Message "Phone and OTP token are required.")).
Proof.
  split.
  - apply (proj1 (proj2 (falsy_field_counts_as_missing
                           (request [("phone", zero)])))).
    reflexivity.
  - apply (proj2 (proj2 (falsy_field_counts_as_missing
                           (code_for "+254712345678" "")))).
    right. reflexivity.
Defined.

Lemma verification_reaches_every_row_witness :
  exists users' tr,
    run (store calm) (verify_otp (code_for "+254712345678" "493817")) three_users =
      (mkResponse 200 (Message "Phone verified successfully."), users', tr)
    /\ Forall2 (fun r r' : Row =>
                  (has_phone same_text (VString "+254712345678") r = true ->
                     r' !! "verification_status" = Some (VBool true))
                  /\ (has_phone same_text (VString "+254712345678") r = false ->
                      r' = r)
                  /\ (forall c, c <> "verification_status" -> r' !! c = r !! c))
               three_users users'.
Proof.
  exists (map (verify_row same_text (VString "+254712345678")) three_users),
    (code_calls "+254712345678" "493817").
  split; [reflexivity |].
  refine (verification_reaches_every_row same_text calm
            (code_for "+254712345678" "493817") three_users
            (map (verify_row same_text (VString "+254712345678")) three_users)
            (mkResponse 200 (Message "Phone verified successfully."))
            (code_calls "+254712345678" "493817") _ _);
    reflexivity.
Defined.

(** * Further properties of the handlers *)

(* Opens the guard of a route and goes through every run behind it. *)
Ltac every_run Hrun :=
  cbn [app] in Hrun;
  match type of Hrun with
  | run _ (register ?V ?body) _ = _ =>
      unfold register in Hrun;
      let Hvalid := fresh "Hvalid" in
      destruct (validationResult (register_chains V) body) eqn:Hvalid;
      cbn [isEmpty negb] in Hrun
  | run _ (send_otp ?body) _ = _ =>
      unfold send_otp in Hrun;
      let Hphone := fresh "Hphone" in
      destruct (ToBoolean (prop body "phone")) eqn:Hphone;
      cbn [negb] in Hrun
  | run _ (verify_otp ?body) _ = _ =>
      unfold verify_otp in Hrun;
      let Hphone := fresh "Hphone" in let Htoken := fresh "Htoken" in
      destruct (ToBoolean (prop body "phone")) eqn:Hphone;
      destruct (ToBoolean (prop body "token")) eqn:Htoken;
      cbn [negb orb] in Hrun
  end;
  all_runs Hrun.

Section EveryRun.

Context {W : Type} (svc : Service W) (V : ValidatorLib).

(** X1: whatever the collaborators answer, the response of a route is one
    of the few responses written in its handler; nothing a collaborator
    returned is ever part of a response. *)
Theorem response_is_one_of_the_handler (route : Route) (body : Body)
    (w w' : W) (resp : Response) (tr : list Event) :
  run svc (app V route body) w = (resp, w', tr) ->
  In resp (responses_of V route body).
Proof.
  intros Hrun. destruct route; every_run Hrun;
    cbn [responses_of In]; try rewrite Hvalid; tauto.
Qed.

(** X2: a handler writes to [console.error] exactly when it answers 500;
    it then writes once, under its own label, as the last thing it does. *)
Theorem logs_exactly_the_500s (route : Route) (body : Body)
    (w w' : W) (resp : Response) (tr : list Event) :
  run svc (app V route body) w = (resp, w', tr) ->
  if (status resp =? 500)%Z
  then exists detail,
         List.filter is_log tr = [ELog (log_label route) detail]
         /\ last tr = Some (ELog (log_label route) detail)
  else List.filter is_log tr = [].
Proof.
  intros Hrun. destruct route; every_run Hrun;
    cbn [status internal_error Z.eqb Pos.eqb List.filter is_log log_label];
    try reflexivity; eexists; split; reflexivity.
Qed.

(** X3: an awaited call that throws ends the handler at once: the answer
    is 500 and the only thing that follows in the run is the log entry
    with the message of the error thrown. *)
Theorem rejection_ends_the_run (route : Route) (body : Body)
    (w w' : W) (resp : Response) (tr : list Event)
    (i : nat) (ev : Event) (e : Error) :
  run svc (app V route body) w = (resp, w', tr) ->
  tr !! i = Some ev ->
  rejection ev = Some e ->
  resp = internal_error
  /\ drop (S i) tr = [ELog (log_label route) (message e)].
Proof.
  intros Hrun Hev Hrejected. destruct route; every_run Hrun;
    repeat (destruct i as [| i]; cbn in Hev; try discriminate Hev);
    injection Hev as <-; cbn [rejection] in Hrejected;
    try discriminate Hrejected;
    injection Hrejected as <-; split; reflexivity.
Qed.

(** X4: [/register] sends a row to the store only after validation found
    nothing, the lookup answered without an account and [bcrypt] returned
    a digest of the submitted password at cost 10.  The row holds that
    digest as [password] and the submitted name, e-mail, phone and
    anonymity flag as sent; after the insert only the log can follow. *)
Theorem insert_comes_after_lookup_and_hash (body : Body) (w w' : W)
    (resp : Response) (tr : list Event) (q : Query) (o : Outcome Result)
    (rows : list Row) :
  run svc (register V body) w = (resp, w', tr) ->
  In (EQuery q o) tr ->
  q_op q = QInsert rows ->
  validationResult (register_chains V) body = []
  /\ exists found hashed rest,
       tr = EQuery (find_by_email (prop body "email")) (Resolved found)
            :: EHash (prop body "password") 10 (Resolved hashed)
            :: EQuery q o :: rest
       /\ ToBoolean (data found) = false
       /\ q = insert_user (new_user (prop body "fullName") (prop body "email")
                             (prop body "phone") (prop body "anonymous")
                             (prop body "isOfficer") hashed)
       /\ Forall (fun ev => is_log ev = true) rest.
Proof.
  intros Hrun Hin Hop. every_run Hrun; which_event Hin;
    injection Hin as <- <-; try discriminate Hop;
    (split; [reflexivity |]); eexists _, _, _;
    (split; [reflexivity |]); (split; [assumption |]);
    (split; [reflexivity |]); repeat constructor.
Qed.

(** X5: a handler only makes the calls of its own source text, on the
    submitted values: [/register] never touches the OTP channel,
    [/send-otp] never touches the record store or [bcrypt], and
    [/verify-otp] sends the store nothing but the update by phone. *)
Theorem handlers_keep_to_their_calls (route : Route) (body : Body)
    (w w' : W) (resp : Response) (tr : list Event) :
  run svc (app V route body) w = (resp, w', tr) ->
  Forall (own_call route body) tr.
Proof.
  intros Hrun. destruct route; every_run Hrun;
    repeat (apply List.Forall_cons;
            [cbn [own_call log_label];
             first [ reflexivity | left; reflexivity
                   | right; eexists; reflexivity | split; reflexivity ] |]);
    apply List.Forall_nil.
Qed.

(** X6: an answer of 200 means that every call of the handler went
    through: the run is the full sequence of the route's calls, each
    resolved, and the last one reported no error. *)
Theorem a_200_is_earned (route : Route) (body : Body)
    (w w' : W) (resp : Response) (tr : list Event) :
  run svc (app V route body) w = (resp, w', tr) ->
  status resp = 200%Z ->
  match route with
  | PostRegister =>
      exists found hashed inserted,
        tr = [ EQuery (find_by_email (prop body "email")) (Resolved found);
               EHash (prop body "password") 10 (Resolved hashed);
               EQuery (insert_user
                         (new_user (prop body "fullName") (prop body "email")
                            (prop body "phone") (prop body "anonymous")
                            (prop body "isOfficer") hashed))
                      (Resolved inserted) ]
        /\ ToBoolean (data found) = false
        /\ ToBoolean (error inserted) = false
  | PostSendOtp =>
      exists sent,
        tr = [ EAuth (SignInWithOtp (prop body "phone")) (Resolved sent) ]
        /\ ToBoolean (error sent) = false
  | PostVerifyOtp =>
      exists checked updated,
        tr = [ EAuth (VerifyOtp (prop body "phone") (prop body "token") "sms")
                 (Resolved checked);
               EQuery (mark_verified (prop body "phone")) (Resolved updated) ]
        /\ ToBoolean (error checked) = false
        /\ ToBoolean (error updated) = false
  end.
Proof.
  intros Hrun Hok. destruct route; every_run Hrun;
    cbn [status internal_error] in Hok; try discriminate Hok;
    repeat eexists; first [reflexivity | assumption].
Qed.

End EveryRun.

(** ** The validation result *)

Lemma error_fields_in_order (chains : list Chain) (body : Body) :
  (forall c xs, In c chains -> prop body (chain_field c) <> VArray xs) ->
  sublist (map ve_param (validationResult chains body)) (map chain_field chains).
Proof.
  induction chains as [| c chains IH]; intros Hplain; [constructor |].
  unfold validationResult in *. cbn [flat_map map]. unfold run_chain at 1.
  assert (Hone : instances (prop body (chain_field c)) = [prop body (chain_field c)]).
  { destruct (prop body (chain_field c)) eqn:Hvalue; try reflexivity.
    exfalso. eapply (Hplain c); [left; reflexivity | exact Hvalue]. }
  rewrite Hone. cbn [flat_map].
  assert (Hrest : sublist (map ve_param (flat_map (run_chain body) chains))
                          (map chain_field chains)).
  { apply IH. intros c' xs Hc'. apply Hplain. right. exact Hc'. }
  destruct (chain_check c (prop body (chain_field c))); cbn [app map ve_param].
  - apply sublist_cons. exact Hrest.
  - apply sublist_skip. exact Hrest.
Qed.

Lemma no_violation_when_all_pass (chains : list Chain) (body : Body) :
  (forall c, In c chains -> passes c body = true) -> violations chains body = [].
Proof.
  unfold violations. induction chains as [| c chains IH]; intros Hall;
    [reflexivity |].
  cbn [flat_map]. rewrite IH by (intros c' Hc'; apply Hall; right; exact Hc').
  assert (Hnone : rejected c body = [])
    by (apply passes_rejected, Hall; left; reflexivity).
  rewrite Hnone. reflexivity.
Qed.

(** X7: the entries of the validation result of [/register] are exactly
    the values that a check turned down: an entry carries the field and
    the [withMessage] text of its rule and the value turned down (the
    value of the field or, for an array, the element), and every value
    turned down has its entry.  The result is empty exactly when all six
    rules pass; when no submitted field is an array, it names every field
    at most once, in the order fullName, email, phone, password,
    anonymous, isOfficer. *)
Theorem validation_result_shape (V : ValidatorLib) (body : Body) :
  let errors := validationResult (register_chains V) body in
  (forall e, In e errors <->
     exists c x, In c (register_chains V)
                 /\ In x (instances (prop body (chain_field c)))
                 /\ chain_check c x = false
                 /\ e = mkValidationError (chain_msg c) (chain_field c) x "body")
  /\ (errors = [] <->
      forall c, In c (register_chains V) -> passes c body = true)
  /\ ((forall f xs, body !! f <> Some (VArray xs)) ->
      sublist (map ve_param errors) required_fields).
Proof.
  intros errors. subst errors. split; [| split].
  - intros e. rewrite validationResult_failing. unfold violations, rejected.
    rewrite in_flat_map. split.
    + intros (c & Hc & He). apply in_map_iff in He as (x & <- & Hx).
      apply filter_In in Hx as [Hx Hfails]. exists c, x.
      repeat split; try assumption.
      destruct (chain_check c x); [discriminate Hfails | reflexivity].
    + intros (c & x & Hc & Hx & Hfails & ->). exists c. split; [exact Hc |].
      apply in_map_iff. exists x. split; [reflexivity |].
      apply filter_In. split; [exact Hx |]. rewrite Hfails. reflexivity.
  - rewrite validationResult_failing. split.
    + intros Hnone c Hc. destruct (passes c body) eqn:Hpasses; [reflexivity |].
      exfalso. eapply failing_chain_is_kept; eassumption.
    + apply no_violation_when_all_pass.
  - intros Hplain.
    apply (error_fields_in_order (register_chains V) body).
    intros c xs _ Hvalue. unfold prop in Hvalue.
    destruct (body !! chain_field c) as [v |] eqn:Hfield;
      cbn in Hvalue; [| discriminate Hvalue].
    subst v. exact (Hplain _ _ Hfield).
Qed.

(** ** The listening port *)

(** X8: the process listens on [process.env.PORT] when that variable is a
    non-empty string, and on 3000 when it is unset or set to the empty
    string; the port is never an empty value. *)
Theorem port_falls_back_to_3000 (env : Env) :
  ToBoolean (PORT env) = true
  /\ (PORT env = three_thousand <->
      env !! "PORT" = None \/ env !! "PORT" = Some "")
  /\ (forall s, env !! "PORT" = Some s -> s <> "" -> PORT env = VString s).
Proof.
  unfold PORT, or_else, getenv.
  destruct (env !! "PORT") as [[| c s] |]; cbn; (split; [reflexivity |]); split.
  - split; [right; reflexivity | reflexivity].
  - intros s [= <-] Hs. congruence.
  - split; [discriminate | intros [H | H]; discriminate H].
  - intros s' [= <-] _. reflexivity.
  - split; [left; reflexivity | reflexivity].
  - intros s H. discriminate H.
Qed.

(** ** The table across requests *)

Section TableEffects.

Variable same : value -> value -> bool.

Lemma store_lookup (env : Oracle) (email : value) (users users' : list Row)
    (o : Outcome Result) :
  query (store_service same env) (find_by_email email) users = (o, users') ->
  users' = users.
Proof.
  cbn [store_service query]. destruct (fault env _); [congruence |].
  unfold apply_query. cbn [find_by_email q_from q_op q_eq q_single].
  cbn [String.eqb Ascii.eqb Bool.eqb negb].
  destruct (List.filter _ users) as [| r [| r' rest]]; congruence.
Qed.

Lemma store_insert (env : Oracle) (row : Row) (users users' : list Row)
    (o : Outcome Result) :
  query (store_service same env) (insert_user row) users = (o, users') ->
  if failedb o then users' = users else users' = (users ++ [row])%list.
Proof.
  cbn [store_service query]. destruct (fault env _) as [[code | e] |];
    intros [= <- <-]; reflexivity.
Qed.

Lemma store_update (env : Oracle) (phone : value) (users users' : list Row)
    (o : Outcome Result) :
  query (store_service same env) (mark_verified phone) users = (o, users') ->
  if failedb o then users' = users
  else users' = map (verify_row same phone) users.
Proof.
  cbn [store_service query]. destruct (fault env _) as [[code | e] |];
    intros [= <- <-]; reflexivity.
Qed.

Lemma register_on_store (env : Oracle) (V : ValidatorLib) (body : Body)
    (users users' : list Row) (resp : Response) (tr : list Event) :
  run (store_service same env) (register V body) users = (resp, users', tr) ->
  if (status resp =? 200)%Z
  then validationResult (register_chains V) body = []
       /\ exists hashed,
            hashing env (prop body "password") 10 = Resolved hashed
            /\ users' = (users ++ [row_of body hashed])%list
  else users' = users.
Proof.
  intros Hrun. every_run Hrun; cbn [status internal_error Z.eqb Pos.eqb];
    repeat match goal with
           | H : query _ (find_by_email _) _ = _ |- _ =>
               apply store_lookup in H; subst
           | H : query _ (insert_user _) _ = _ |- _ =>
               apply store_insert in H; cbn [failedb] in H;
               try rewrite Htest0 in H; subst
           | H : bcrypt_hash (store_service _ _) _ _ _ = _ |- _ =>
               cbn [store_service bcrypt_hash] in H;
               let Hh := fresh "Hdigest" in injection H as Hh <-
           end;
    try reflexivity.
  split; [reflexivity | eexists; split; [eassumption | reflexivity]].
Qed.

Lemma verify_on_store (env : Oracle) (body : Body)
    (users users' : list Row) (resp : Response) (tr : list Event) :
  run (store_service same env) (verify_otp body) users = (resp, users', tr) ->
  if (status resp =? 200)%Z
  then users' = map (verify_row same (prop body "phone")) users
  else users' = users.
Proof.
  intros Hrun. every_run Hrun; cbn [status internal_error Z.eqb Pos.eqb];
    repeat match goal with
           | H : query _ (mark_verified _) _ = _ |- _ =>
               apply store_update in H; cbn [failedb] in H;
               try rewrite Htest0 in H; subst
           | H : auth (store_service _ _) _ _ = _ |- _ =>
               cbn [store_service auth] in H; injection H as _ <-
           end;
    reflexivity.
Qed.

Lemma send_on_store (env : Oracle) (body : Body)
    (users users' : list Row) (resp : Response) (tr : list Event) :
  run (store_service same env) (send_otp body) users = (resp, users', tr) ->
  users' = users.
Proof.
  intros Hrun. every_run Hrun;
    repeat match goal with
           | H : auth (store_service _ _) _ _ = _ |- _ =>
               cbn [store_service auth] in H; injection H as _ <-
           end;
    reflexivity.
Qed.

End TableEffects.

Section AcrossRequests.

Variable same : value -> value -> bool.

Lemma row_of_email (body : Body) (hashed : string) :
  row_of body hashed !! "email" = Some (prop body "email").
Proof. reflexivity. Qed.

Lemma row_of_phone (body : Body) (hashed : string) :
  row_of body hashed !! "phone" = Some (prop body "phone").
Proof. reflexivity. Qed.

(** Whether the update selects a row depends on its phone only, which the
    update does not write; so the update changes nothing when repeated. *)
Lemma verify_row_twice (phone : value) (r : Row) :
  verify_row same phone (verify_row same phone r) = verify_row same phone r.
Proof.
  unfold verify_row, patch_row.
  destruct (matches same [("phone", phone)] r) eqn:Hhit; [| rewrite Hhit; reflexivity].
  assert (Hstill : matches same [("phone", phone)]
                     ({[ "verification_status" := VBool true ]} ∪ r) = true).
  { unfold matches in *. cbn [forallb fst snd] in *.
    rewrite lookup_union_r by (apply lookup_singleton_ne; discriminate).
    exact Hhit. }
  rewrite Hstill. apply map_eq. intros c. rewrite !lookup_union.
  destruct ({[ "verification_status" := VBool true ]} !! c) as [v |];
    destruct (r !! c); reflexivity.
Qed.

Lemma rows_kept (phone : value) (users : list Row) :
  Forall2 (fun r r' : Row =>
             (forall c, c <> "verification_status" -> r' !! c = r !! c)
             /\ (verified r -> verified r'))
          users (map (verify_row same phone) users).
Proof.
  induction users as [| r users IH]; cbn [map]; constructor; [| exact IH].
  destruct (patched_row same phone r) as (Hhit & Hmiss & Hother).
  split; [exact Hother |]. unfold verified, verify_row. intros Hverified.
  destruct (has_phone same phone r); [apply Hhit; reflexivity |].
  rewrite Hmiss by reflexivity. exact Hverified.
Qed.

Lemma rows_untouched (users : list Row) :
  Forall2 (fun r r' : Row =>
             (forall c, c <> "verification_status" -> r' !! c = r !! c)
             /\ (verified r -> verified r'))
          users users.
Proof.
  induction users as [| r users IH]; constructor; [| exact IH].
  split; [reflexivity | tauto].
Qed.

(** X9: a [/register] request answered with 200 has added exactly one row
    at the end of the table, built from the submitted fields and from the
    digest that [bcrypt] returned for the submitted password at cost 10;
    the rows that were there are as they were. *)
Theorem registration_appends_one_row (env : Oracle) (V : ValidatorLib)
    (body : Body) (users users' : list Row) (resp : Response)
    (tr : list Event) :
  run (store_service same env) (register V body) users = (resp, users', tr) ->
  status resp = 200%Z ->
  exists hashed,
    hashing env (prop body "password") 10 = Resolved hashed
    /\ users' = (users ++ [row_of body hashed])%list.
Proof.
  intros Hrun Hok. apply register_on_store in Hrun. rewrite Hok in Hrun.
  cbn [Z.eqb Pos.eqb] in Hrun. apply Hrun.
Qed.

(** X10: a request that is not answered with 200 has changed nothing in the
    table, on any route and whatever failed; [/send-otp] never changes the
    table, answered with 200 or not. *)
Theorem no_200_no_change (env : Oracle) (V : ValidatorLib) (route : Route)
    (body : Body) (users users' : list Row) (resp : Response)
    (tr : list Event) :
  run (store_service same env) (app V route body) users = (resp, users', tr) ->
  status resp <> 200%Z \/ route = PostSendOtp ->
  users' = users.
Proof.
  intros Hrun Hwhy. destruct route; cbn [app] in Hrun.
  - destruct Hwhy as [Hnot | H]; [| discriminate H].
    apply register_on_store in Hrun.
    destruct (status resp =? 200)%Z eqn:Hstatus; [| exact Hrun].
    apply Z.eqb_eq in Hstatus. contradiction.
  - eapply send_on_store. exact Hrun.
  - destruct Hwhy as [Hnot | H]; [| discriminate H].
    apply verify_on_store in Hrun.
    destruct (status resp =? 200)%Z eqn:Hstatus; [| exact Hrun].
    apply Z.eqb_eq in Hstatus. contradiction.
Qed.

(** X11: with a store that answers and a [bcrypt] that returns a digest, a
    valid registration is turned down exactly when one stored row has the
    submitted e-mail ([.single()] yields a row in that case only); with no
    such row, and also with two or more, the registration goes through
    and its row is added. *)
Theorem turned_down_exactly_when_one_row_matches (env : Oracle)
    (V : ValidatorLib) (body : Body) (users users' : list Row)
    (resp : Response) (tr : list Event) (hashed : string) :
  validationResult (register_chains V) body = [] ->
  fault env (find_by_email (prop body "email")) = None ->
  fault env (insert_user (row_of body hashed)) = None ->
  hashing env (prop body "password") 10 = Resolved hashed ->
  run (store_service same env) (register V body) users = (resp, users', tr) ->
  match List.filter (matches same [("email", prop body "email")]) users with
  | [_] =>
      resp = mkResponse 400 (Message "Email is already registered.")
      /\ users' = users
  | _ =>
      resp = mkResponse 200
               (Message "Registration successful. Please verify your phone.")
      /\ users' = (users ++ [row_of body hashed])%list
  end.
Proof.
  intros Hvalid Hlookup Hinsert Hdigest Hrun. unfold_handler_in Hrun.
  rewrite Hvalid in Hrun.
  cbn [isEmpty negb bind run store_service query bcrypt_hash] in Hrun.
  rewrite Hlookup in Hrun. unfold apply_query at 1 in Hrun.
  cbn [find_by_email q_from q_op q_eq q_single] in Hrun.
  cbn [String.eqb Ascii.eqb Bool.eqb negb] in Hrun.
  unfold row_of in *.
  destruct (List.filter _ users) as [| r [| r' rest]];
    cbn [project omap data failure ToBoolean bind run
         store_service query bcrypt_hash] in Hrun;
    try (rewrite Hdigest in Hrun;
         cbn [bind run store_service query bcrypt_hash] in Hrun;
         rewrite Hinsert in Hrun; unfold apply_query in Hrun;
         cbn [insert_user q_from q_op q_eq q_single String.eqb Ascii.eqb
              Bool.eqb negb no_error error ToBoolean bind run] in Hrun);
    injection Hrun as <- <- _; split; reflexivity.
Qed.

(** X12: registering the same request a second time is turned down when
    the table held no row with that e-mail before the first registration
    (the store comparing the e-mail equal to itself): the answer is 400
    "Email is already registered." and the table keeps the one new row. *)
Theorem second_registration_is_turned_down (env1 env2 : Oracle)
    (V : ValidatorLib) (body : Body) (users users1 users2 : list Row)
    (resp1 resp2 : Response) (tr1 tr2 : list Event) :
  List.filter (matches same [("email", prop body "email")]) users = [] ->
  same (prop body "email") (prop body "email") = true ->
  run (store_service same env1) (register V body) users = (resp1, users1, tr1) ->
  status resp1 = 200%Z ->
  fault env2 (find_by_email (prop body "email")) = None ->
  run (store_service same env2) (register V body) users1 = (resp2, users2, tr2) ->
  resp2 = mkResponse 400 (Message "Email is already registered.")
  /\ users2 = users1
  /\ length users2 = S (length users).
Proof.
  intros Hnone Hsame Hrun1 Hok Hlookup Hrun2.
  apply register_on_store in Hrun1. rewrite Hok in Hrun1.
  cbn [Z.eqb Pos.eqb] in Hrun1.
  destruct Hrun1 as (Hvalid & hashed & _ & ->).
  assert (Hone : List.filter (matches same [("email", prop body "email")])
                   (users ++ [row_of body hashed])
                 = [row_of body hashed]).
  { rewrite List.filter_app, Hnone. cbn [List.filter app].
    unfold matches. cbn [forallb fst snd]. rewrite row_of_email, Hsame.
    reflexivity. }
  destruct (stored_email_is_turned_down same env2 V body _ _ Hvalid Hlookup Hone)
    as (tr & Hrun & _).
  rewrite Hrun in Hrun2. injection Hrun2 as <- <- _.
  split; [reflexivity |]. split; [reflexivity |].
  rewrite length_app. cbn [length]. lia.
Qed.

(** X13: registration followed by an accepted [/verify-otp] for the phone
    that was registered leaves the new account verified, with every other
    column as registration stored it (the store comparing the phone equal
    to itself). *)
Theorem registered_then_verified (env1 env2 : Oracle) (V : ValidatorLib)
    (body code : Body) (users users1 users2 : list Row)
    (resp1 resp2 : Response) (tr1 tr2 : list Event) :
  prop code "phone" = prop body "phone" ->
  same (prop body "phone") (prop body "phone") = true ->
  run (store_service same env1) (register V body) users = (resp1, users1, tr1) ->
  status resp1 = 200%Z ->
  run (store_service same env2) (verify_otp code) users1 = (resp2, users2, tr2) ->
  status resp2 = 200%Z ->
  exists hashed,
    hashing env1 (prop body "password") 10 = Resolved hashed
    /\ last users2 =
         Some (<[ "verification_status" := VBool true ]> (row_of body hashed)).
Proof.
  intros Hphone Hsame Hrun1 Hok1 Hrun2 Hok2.
  apply register_on_store in Hrun1. rewrite Hok1 in Hrun1.
  cbn [Z.eqb Pos.eqb] in Hrun1.
  destruct Hrun1 as (_ & hashed & Hdigest & ->).
  apply verify_on_store in Hrun2. rewrite Hok2 in Hrun2.
  cbn [Z.eqb Pos.eqb] in Hrun2. subst users2.
  exists hashed. split; [exact Hdigest |].
  rewrite List.map_app. cbn [map]. rewrite last_snoc. f_equal.
  unfold verify_row, patch_row, matches. cbn [forallb fst snd].
  rewrite row_of_phone, Hphone, Hsame. cbn [andb].
  symmetry. apply insert_union_singleton_l.
Qed.

(** X14: a second accepted [/verify-otp] for the same phone leaves the
    table exactly as the first one left it. *)
Theorem verifying_again_changes_nothing (env1 env2 : Oracle) (body : Body)
    (users users1 users2 : list Row) (resp1 resp2 : Response)
    (tr1 tr2 : list Event) :
  run (store_service same env1) (verify_otp body) users = (resp1, users1, tr1) ->
  status resp1 = 200%Z ->
  run (store_service same env2) (verify_otp body) users1 = (resp2, users2, tr2) ->
  status resp2 = 200%Z ->
  users2 = users1.
Proof.
  intros Hrun1 Hok1 Hrun2 Hok2.
  apply verify_on_store in Hrun1. rewrite Hok1 in Hrun1.
  apply verify_on_store in Hrun2. rewrite Hok2 in Hrun2.
  cbn [Z.eqb Pos.eqb] in Hrun1, Hrun2. subst users1 users2.
  rewrite List.map_map. apply List.map_ext. intros r. apply verify_row_twice.
Qed.

(** X15: no request on any route removes a row, changes a column other
    than [verification_status] of a row that was there, or turns a
    verified row back into an unverified one; at most one row is added. *)
Theorem rows_are_kept_and_stay_verified (env : Oracle) (V : ValidatorLib)
    (route : Route) (body : Body) (users users' : list Row)
    (resp : Response) (tr : list Event) :
  run (store_service same env) (app V route body) users = (resp, users', tr) ->
  exists kept added,
    users' = (kept ++ added)%list
    /\ length added <= 1
    /\ Forall2 (fun r r' : Row =>
                  (forall c, c <> "verification_status" -> r' !! c = r !! c)
                  /\ (verified r -> verified r'))
               users kept.
Proof.
  intros Hrun. destruct route; cbn [app] in Hrun.
  - apply register_on_store in Hrun. destruct (status resp =? 200)%Z.
    + destruct Hrun as (_ & hashed & _ & ->).
      exists users, [row_of body hashed].
      split; [reflexivity |]. split; [cbn; lia | apply rows_untouched].
    + subst users'. exists users, []. rewrite app_nil_r.
      split; [reflexivity |]. split; [cbn; lia | apply rows_untouched].
  - apply send_on_store in Hrun. subst users'. exists users, [].
    rewrite app_nil_r.
    split; [reflexivity |]. split; [cbn; lia | apply rows_untouched].
  - apply verify_on_store in Hrun. destruct (status resp =? 200)%Z; subst users'.
    + exists (map (verify_row same (prop body "phone")) users), [].
      rewrite app_nil_r.
      split; [reflexivity |]. split; [cbn; lia | apply rows_kept].
    + exists users, []. rewrite app_nil_r.
      split; [reflexivity |]. split; [cbn; lia | apply rows_untouched].
Qed.

End AcrossRequests.

(** * The further properties at concrete requests *)

Lemma response_is_one_of_the_handler_witness :
  run agreeable (app validators PostSendOtp caller) tt =
    (mkResponse 200 (Message "OTP sent successfully."), tt,
     [EAuth (SignInWithOtp (VString "+254700000001")) (Resolved no_error)])
  /\ In (mkResponse 200 (Message "OTP sent successfully."))
        (responses_of validators PostSendOtp caller).
Proof.
  split; [reflexivity |].
  refine (response_is_one_of_the_handler agreeable validators PostSendOtp
            caller tt tt _
            [EAuth (SignInWithOtp (VString "+254700000001")) (Resolved no_error)]
            _).
  reflexivity.
Defined.

Lemma logs_exactly_the_500s_witness :
  exists detail,
    List.filter is_log
      [EAuth (SignInWithOtp (VString "+254700000001"))
         (Rejected (mkError "fetch failed"));
       ELog "Error sending OTP:" "fetch failed"]
    = [ELog (log_label PostSendOtp) detail]
    /\ last [EAuth (SignInWithOtp (VString "+254700000001"))
               (Rejected (mkError "fetch failed"));
             ELog "Error sending OTP:" "fetch failed"]
       = Some (ELog (log_label PostSendOtp) detail).
Proof.
  refine (logs_exactly_the_500s offline validators PostSendOtp caller tt tt
            internal_error _ _).
  reflexivity.
Defined.

Lemma rejection_ends_the_run_witness :
  internal_error = internal_error
  /\ drop 1 [EQuery (find_by_email (VString "alice@example.org"))
               (Rejected (mkError "fetch failed"));
             ELog "Error registering user:" "fetch failed"]
     = [ELog (log_label PostRegister) (message (mkError "fetch failed"))].
Proof.
  refine (rejection_ends_the_run offline validators PostRegister alice tt tt
            internal_error _ 0
            (EQuery (find_by_email (VString "alice@example.org"))
               (Rejected (mkError "fetch failed")))
            (mkError "fetch failed") _ _ _);
    [reflexivity | reflexivity | reflexivity].
Defined.

Lemma insert_comes_after_lookup_and_hash_witness :
  validationResult (register_chains validators) alice = []
  /\ exists found hashed rest,
       alice_calls no_error =
         EQuery (find_by_email (prop alice "email")) (Resolved found)
         :: EHash (prop alice "password") 10 (Resolved hashed)
         :: EQuery (insert_user alice_row) (Resolved no_error) :: rest
       /\ ToBoolean (data found) = false
       /\ insert_user alice_row =
            insert_user (new_user (prop alice "fullName") (prop alice "email")
                           (prop alice "phone") (prop alice "anonymous")
                           (prop alice "isOfficer") hashed)
       /\ Forall (fun ev => is_log ev = true) rest.
Proof.
  refine (insert_comes_after_lookup_and_hash agreeable validators alice tt tt
            (mkResponse 200
               (Message "Registration successful. Please verify your phone."))
            (alice_calls no_error) (insert_user alice_row) (Resolved no_error)
            [alice_row] _ _ _);
    [reflexivity | right; right; left; reflexivity | reflexivity].
Defined.

Lemma handlers_keep_to_their_calls_witness :
  Forall (own_call PostVerifyOtp (code_for "+254712345678" "493817"))
    (code_calls "+254712345678" "493817").
Proof.
  refine (handlers_keep_to_their_calls agreeable validators PostVerifyOtp
            (code_for "+254712345678" "493817") tt tt
            (mkResponse 200 (Message "Phone verified successfully.")) _ _).
  reflexivity.
Defined.

Lemma a_200_is_earned_witness :
  exists found hashed inserted,
    alice_calls no_error =
      [ EQuery (find_by_email (prop alice "email")) (Resolved found);
        EHash (prop alice "password") 10 (Resolved hashed);
        EQuery (insert_user
                  (new_user (prop alice "fullName") (prop alice "email")
                     (prop alice "phone") (prop alice "anonymous")
                     (prop alice "isOfficer") hashed))
               (Resolved inserted) ]
    /\ ToBoolean (data found) = false
    /\ ToBoolean (error inserted) = false.
Proof.
  refine (a_200_is_earned agreeable validators PostRegister alice tt tt
            (mkResponse 200
               (Message "Registration successful. Please verify your phone."))
            (alice_calls no_error) _ _);
    [reflexivity | reflexivity].
Defined.

Lemma validation_result_shape_witness :
  validationResult (register_chains validators) alice = []
  /\ In (mkValidationError "Full name must be at least 3 characters long"
           "fullName" (VString "B") "body")
        (validationResult (register_chains validators) crowd).
Proof.
  split.
  - apply (proj2 (proj1 (proj2 (validation_result_shape validators alice)))).
    intros c Hc. cbn [register_chains In] in Hc.
    destruct Hc as [<- | [<- | [<- | [<- | [<- | [<- | []]]]]]]; reflexivity.
  - apply (proj2 (proj1 (validation_result_shape validators crowd) _)).
    exists (mkChain "fullName" (isLength validators 3)
              "Full name must be at least 3 characters long"), (VString "B").
    split; [left; reflexivity |].
    split; [right; right; left; reflexivity |]. split; reflexivity.
Defined.

Lemma port_falls_back_to_3000_witness :
  PORT {[ "PORT" := "" ]} = three_thousand
  /\ PORT {[ "PORT" := "8080" ]} = VString "8080".
Proof.
  split.
  - apply (proj1 (proj2 (port_falls_back_to_3000 {[ "PORT" := "" ]}))).
    right. reflexivity.
  - apply (proj2 (proj2 (port_falls_back_to_3000 {[ "PORT" := "8080" ]}))).
    + reflexivity.
    + discriminate.
Defined.

Lemma registration_appends_one_row_witness :
  exists hashed,
    hashing calm (prop alice "password") 10 = Resolved hashed
    /\ (twice_alice ++ [alice_row])%list = (twice_alice ++ [row_of alice hashed])%list.
Proof.
  refine (registration_appends_one_row same_text calm validators alice
            twice_alice (twice_alice ++ [alice_row])%list
            (mkResponse 200
               (Message "Registration successful. Please verify your phone."))
            (alice_calls (failure "PGRST116")) _ _);
    [reflexivity | reflexivity].
Defined.

Lemma no_200_no_change_witness :
  run (store otp_refused) (app validators PostVerifyOtp
                             (code_for "+254712345678" "000000")) two_rows =
    (internal_error, two_rows,
     [EAuth (VerifyOtp (VString "+254712345678") (VString "000000") "sms")
        (Resolved (failure "otp_expired"));
      ELog "Error verifying OTP:" "Invalid OTP"])
  /\ two_rows = two_rows.
Proof.
  split; [reflexivity |].
  refine (no_200_no_change same_text otp_refused validators PostVerifyOtp
            (code_for "+254712345678" "000000") two_rows two_rows
            internal_error
            [EAuth (VerifyOtp (VString "+254712345678") (VString "000000") "sms")
               (Resolved (failure "otp_expired"));
             ELog "Error verifying OTP:" "Invalid OTP"] _ _);
    [reflexivity | left; discriminate].
Defined.

Lemma turned_down_exactly_when_one_row_matches_witness :
  (mkResponse 400 (Message "Email is already registered.") =
     mkResponse 400 (Message "Email is already registered.")
   /\ one_user = one_user)
  /\ (mkResponse 200
        (Message "Registration successful. Please verify your phone.") =
      mkResponse 200
        (Message "Registration successful. Please verify your phone.")
      /\ (twice_alice ++ [alice_row])%list =
         (twice_alice ++ [row_of alice "$2b$10$N9qo8uLOickgx2ZMRZoMye"])%list).
Proof.
  split.
  - refine (turned_down_exactly_when_one_row_matches same_text calm validators
              alice one_user one_user
              (mkResponse 400 (Message "Email is already registered."))
              [EQuery (find_by_email (VString "alice@example.org"))
                 (Resolved (mkResult (VObject [("id", VString "7f0c")]) VNull))]
              "$2b$10$N9qo8uLOickgx2ZMRZoMye" _ _ _ _ _);
      [reflexivity | reflexivity | reflexivity | reflexivity
      | reflexivity].
  - refine (turned_down_exactly_when_one_row_matches same_text calm validators
              alice twice_alice (twice_alice ++ [alice_row])%list
              (mkResponse 200
                 (Message "Registration successful. Please verify your phone."))
              (alice_calls (failure "PGRST116"))
              "$2b$10$N9qo8uLOickgx2ZMRZoMye" _ _ _ _ _);
      [reflexivity | reflexivity | reflexivity | reflexivity
      | reflexivity].
Defined.

Lemma second_registration_is_turned_down_witness :
  mkResponse 400 (Message "Email is already registered.") =
    mkResponse 400 (Message "Email is already registered.")
  /\ [alice_row] = [alice_row]
  /\ length [alice_row] = 1.
Proof.
  refine (second_registration_is_turned_down same_text calm calm validators
            alice [] [alice_row] [alice_row]
            (mkResponse 200
               (Message "Registration successful. Please verify your phone."))
            (mkResponse 400 (Message "Email is already registered."))
            (alice_calls (failure "PGRST116"))
            [EQuery (find_by_email (VString "alice@example.org"))
               (Resolved (mkResult (VObject []) VNull))]
            _ _ _ _ _ _);
    [reflexivity | reflexivity | reflexivity | reflexivity
    | reflexivity | reflexivity].
Defined.

Lemma registered_then_verified_witness :
  exists hashed,
    hashing calm (prop alice "password") 10 = Resolved hashed
    /\ last [verify_row same_text (VString "+254712345678") alice_row] =
         Some (<[ "verification_status" := VBool true ]> (row_of alice hashed)).
Proof.
  refine (registered_then_verified same_text calm calm validators alice
            (code_for "+254712345678" "493817") [] [alice_row]
            [verify_row same_text (VString "+254712345678") alice_row]
            (mkResponse 200
               (Message "Registration successful. Please verify your phone."))
            (mkResponse 200 (Message "Phone verified successfully."))
            (alice_calls (failure "PGRST116"))
            (code_calls "+254712345678" "493817")
            _ _ _ _ _ _);
    [reflexivity | reflexivity | reflexivity | reflexivity
    | reflexivity | reflexivity].
Defined.

Lemma verifying_again_changes_nothing_witness :
  map (verify_row same_text (VString "+254712345678")) two_rows =
  map (verify_row same_text (VString "+254712345678")) two_rows.
Proof.
  refine (verifying_again_changes_nothing same_text calm calm
            (code_for "+254712345678" "493817") two_rows
            (map (verify_row same_text (VString "+254712345678")) two_rows)
            (map (verify_row same_text (VString "+254712345678")) two_rows)
            (mkResponse 200 (Message "Phone verified successfully."))
            (mkResponse 200 (Message "Phone verified successfully."))
            (code_calls "+254712345678" "493817")
            (code_calls "+254712345678" "493817")
            _ _ _ _);
    [reflexivity | reflexivity
    | reflexivity | reflexivity].
Defined.

Lemma rows_are_kept_and_stay_verified_witness :
  exists kept added,
    map (verify_row same_text (VString "+254712345678")) two_rows =
      (kept ++ added)%list
    /\ length added <= 1
    /\ Forall2 (fun r r' : Row =>
                  (forall c, c <> "verification_status" -> r' !! c = r !! c)
                  /\ (verified r -> verified r'))
               two_rows kept.
Proof.
  refine (rows_are_kept_and_stay_verified same_text calm validators
            PostVerifyOtp (code_for "+254712345678" "493817") two_rows
            (map (verify_row same_text (VString "+254712345678")) two_rows)
            (mkResponse 200 (Message "Phone verified successfully."))
            (code_calls "+254712345678" "493817") _).
  reflexivity.
Defined.
